(** * open-light: structured-light scanner front end and Kinect helpers

    A shallow embedding of

    - [src/Kinect/Kinect-Utility.h] and [src/Kinect/Kinect-Utility.cpp]
      (module [Kinect]): raw-depth validity and the depth / world / RGB
      coordinate maps;
    - [src/Calibration/cvStructuredLight_Raj.cpp] (module [Scanner]): the
      [main] routine, i.e. start-up, the loading of persisted calibration,
      the background model and the key-driven command loop.

    Conventions.  C++ [int] and [unsigned short] values are integers of [Z];
    [float] and [double] values are IEEE-754 binary32 / binary64 numbers,
    taken from [SpecFloat] (every operation rounds to the type of the C++
    expression, round-to-nearest-even).  Console output ([printf]) is not
    modelled; [char] buffers are unbounded strings. *)

From Stdlib Require Import ZArith QArith Bool List String Ascii Lia.
From Stdlib Require Import Floats.SpecFloat.
Import ListNotations.

Local Open Scope Z_scope.

(* ================================================================= *)
(** * Arithmetic interface                                             *)
(* ================================================================= *)

(** The Kinect helpers are written once, over an interface giving the two
    C++ floating types with the operators the source applies to them.  Two
    instances follow: IEEE-754 arithmetic (what the compiled program
    computes) and exact rational arithmetic (the reading under which the
    algebraic identities of the maps are meant). *)

Class Arithmetic := {
  float  : Type;
  double : Type;
  (** implicit conversion [int -> float] *)
  float_of_int : Z -> float;
  (** decimal literals [n / 10^k] with suffix [f] and without *)
  float_dec  : Z -> nat -> float;
  double_dec : Z -> nat -> double;
  (** promotion [float -> double] and the cast [(float)] *)
  double_of_float : float -> double;
  float_of_double : double -> float;
  fadd : float -> float -> float;
  fsub : float -> float -> float;
  fmul : float -> float -> float;
  fdiv : float -> float -> float;
  dadd : double -> double -> double;
  ddiv : double -> double -> double;
  (** the relational operators [<] and [>] on [float] *)
  flt : float -> float -> bool;
  fgt : float -> float -> bool
}.

(** ** IEEE-754 instance *)

Module IEEE.

Definition prec32 : Z := 24.
Definition emax32 : Z := 128.
Definition prec64 : Z := 53.
Definition emax64 : Z := 1024.

Definition of_Z (prec emax : Z) (z : Z) : spec_float :=
  binary_normalize prec emax z 0 false.

(** An [int] converted to [float]. *)
Definition f32 (z : Z) : spec_float := of_Z prec32 emax32 z.

(** A decimal literal is the correctly rounded quotient of two exactly
    representable integers. *)
Definition of_dec (prec emax : Z) (n : Z) (k : nat) : spec_float :=
  SFdiv prec emax (of_Z prec emax n) (of_Z prec emax (10 ^ Z.of_nat k)).

(** Rounding a value to another format; special values are kept. *)
Definition round_to (prec emax : Z) (x : spec_float) : spec_float :=
  match x with
  | S754_finite s m e => binary_round prec emax s m e
  | _ => x
  end.

#[export] Instance arith : Arithmetic := {|
  float  := spec_float;
  double := spec_float;
  float_of_int := f32;
  float_dec  := of_dec prec32 emax32;
  double_dec := of_dec prec64 emax64;
  double_of_float := fun x => x;
  float_of_double := round_to prec32 emax32;
  fadd := SFadd prec32 emax32;
  fsub := SFsub prec32 emax32;
  fmul := SFmul prec32 emax32;
  fdiv := SFdiv prec32 emax32;
  dadd := SFadd prec64 emax64;
  ddiv := SFdiv prec64 emax64;
  flt := SFltb;
  fgt := fun a b => SFltb b a
|}.

(** A binary32 value lies in the closed interval between two integers. *)
Definition within (lo hi : Z) (v : spec_float) : Prop :=
  SFleb (f32 lo) v = true /\ SFleb v (f32 hi) = true.

(** [FLT_MAX] of <float.h>: the largest finite binary32 number,
    (2^24 - 1) * 2^104. *)
Definition FLT_MAX : spec_float := SFmax_float prec32 emax32.

End IEEE.

(** ** Exact instance *)

Module Exact.

Definition dec (n : Z) (k : nat) : Q := inject_Z n / inject_Z (10 ^ Z.of_nat k).

Definition ltb (a b : Q) : bool := negb (Qle_bool b a).

#[export] Instance arith : Arithmetic := {|
  float  := Q;
  double := Q;
  float_of_int := inject_Z;
  float_dec  := dec;
  double_dec := dec;
  double_of_float := fun x => x;
  float_of_double := fun x => x;
  fadd := Qplus;
  fsub := Qminus;
  fmul := Qmult;
  fdiv := Qdiv;
  dadd := Qplus;
  ddiv := Qdiv;
  flt := ltb;
  fgt := fun a b => ltb b a
|}.

End Exact.

(* ================================================================= *)
(** * Kinect-Utility                                                   *)
(* ================================================================= *)

Module Kinect.

(** [bool Kinect_IsDepthValid(unsigned short Depth)].  The argument is
    promoted to [int] by the comparisons, so no wrap-around occurs. *)
Definition Kinect_IsDepthValid (Depth : Z) : bool :=
  if (Depth >? 0) && negb (Depth =? 0x07ff) then true else false.

(** The values of [unsigned short]. *)
Definition is_ushort (d : Z) : Prop := 0 <= d < 65536.

(** <stdlib.h> of the Microsoft C runtime:
    [#define __max(a,b) (((a) > (b)) ? (a) : (b))] and
    [#define __min(a,b) (((a) < (b)) ? (a) : (b))]. *)
Definition __max {A : Arithmetic} (a b : float) : float :=
  if fgt a b then a else b.
Definition __min {A : Arithmetic} (a b : float) : float :=
  if flt a b then a else b.

Section Maps.
Context {A : Arithmetic}.

(** Kinect-Utility.h *)
Definition Kinect_MinDistance : float := float_of_int (-10).
Definition Kinect_DepthScaleFactor : float := float_dec 21 4.
(** Kinect-Utility.cpp *)
Definition Kinect_ColorScaleFactor : float := float_dec 23 4.
Definition Kinect_rgbxoffset : double := double_dec (-18) 1.
Definition Kinect_rgbyoffset : double := double_dec (-24) 1.

(** [float Kinect_DepthValueToZ(unsigned short Depth)] *)
Definition Kinect_DepthValueToZ (Depth : Z) : float :=
  fdiv (float_dec 1000 1)
       (fadd (fmul (float_dec (-307) 5) (float_of_int Depth))
             (float_dec 333 2)).

(** The depth-axis part of [KinectDepthToWorld]:
    [zz -= 200; zz *= -1;] *)
Definition depth_axis_to_world (zz : float) : float :=
  fmul (fsub zz (float_of_int 200)) (float_of_int (-1)).

(** [void KinectDepthToWorld(float &x, float &y, float &z)]: the three
    references are read on entry and written on exit; the result is the
    triple written. *)
Definition KinectDepthToWorld (x y z : float) : float * float * float :=
  let zz := z in
  let xx := fmul (fmul (fsub x (float_of_int 320))
                       (fadd zz Kinect_MinDistance))
                 Kinect_DepthScaleFactor in
  let yy := fmul (fmul (fsub y (float_of_int 240))
                       (fadd zz Kinect_MinDistance))
                 Kinect_DepthScaleFactor in
  let zz := depth_axis_to_world zz in
  (xx, yy, zz).

(** The depth-axis part of [KinectWorldToRGBSpace]:
    [z *= -1; z += 200;] *)
Definition world_axis_to_depth (z : float) : float :=
  fadd (fmul z (float_of_int (-1))) (float_of_int 200).

(** [void KinectWorldToRGBSpace(float &x, float &y, float z)]: [x] and
    [y] are read and overwritten, [z] is passed by value; the result is
    the pair written to [x] and [y].  [rgb_projection] is the function up
    to [ox += 320; oy += 240;], the last two statements clamp. *)
Definition rgb_projection (x y z : float) : float * float :=
  let z := world_axis_to_depth z in
  let ox := fdiv (float_of_double
                    (ddiv (dadd (double_of_float x) Kinect_rgbxoffset)
                          (double_of_float Kinect_ColorScaleFactor)))
                 (fadd z Kinect_MinDistance) in
  let oy := fdiv (float_of_double
                    (ddiv (dadd (double_of_float y) Kinect_rgbyoffset)
                          (double_of_float Kinect_ColorScaleFactor)))
                 (fadd z Kinect_MinDistance) in
  let ox := fadd ox (float_of_int 320) in
  let oy := fadd oy (float_of_int 240) in
  (ox, oy).

Definition KinectWorldToRGBSpace (x y z : float) : float * float :=
  let '(ox, oy) := rgb_projection x y z in
  (__min (float_of_int 640) (__max (float_of_int 0) ox),
   __min (float_of_int 480) (__max (float_of_int 0) oy)).

End Maps.

End Kinect.


(* ================================================================= *)
(** * OpenCV values used by the front end                              *)
(* ================================================================= *)

(** Only what [main] touches is modelled: matrices of type [CV_32FC1],
    images of depth [IPL_DEPTH_8U], and the three fill operations.  A cell
    that was allocated and never written is [None]. *)

Module OpenCV.

(** [CvScalar]: four [double] components. *)
Record CvScalar := mkScalar {
  val0 : spec_float; val1 : spec_float; val2 : spec_float; val3 : spec_float
}.

Definition double_of_int : Z -> spec_float := IEEE.of_Z IEEE.prec64 IEEE.emax64.

(** [cvScalar(v0, v1 = 0, v2 = 0, v3 = 0)] *)
Definition cvScalar (v0 v1 v2 v3 : spec_float) : CvScalar := mkScalar v0 v1 v2 v3.
Definition cvScalar1 (v0 : spec_float) : CvScalar :=
  cvScalar v0 (double_of_int 0) (double_of_int 0) (double_of_int 0).
Definition cvScalar3 (v0 v1 v2 : spec_float) : CvScalar :=
  cvScalar v0 v1 v2 (double_of_int 0).

Definition components (s : CvScalar) : list spec_float :=
  [val0 s; val1 s; val2 s; val3 s].

(** Rounding a [double] to the nearest integer, ties to even. *)
Definition round_half_even (n d : Z) : Z :=
  let q := n / d in
  let r := n mod d in
  match 2 * r ?= d with
  | Lt => q
  | Gt => q + 1
  | Eq => if Z.even q then q else q + 1
  end.

Definition cvRound (v : spec_float) : Z :=
  match v with
  | S754_finite s m e =>
      cond_Zopp s (if 0 <=? e then Z.pos m * 2 ^ e
                   else round_half_even (Z.pos m) (2 ^ (- e)))
  | _ => 0
  end.

(** [saturate_cast<uchar>] *)
Definition saturate_u8 (z : Z) : Z := Z.max 0 (Z.min 255 z).

(** A [CvMat] of type [CV_32FC1], row-major. *)
Record CvMat := mkMat {
  rows : Z;
  cols : Z;
  data : list (option spec_float)
}.

Definition cvCreateMat (r c : Z) : CvMat :=
  mkMat r c (repeat None (Z.to_nat (r * c))).

(** An [IplImage] of depth [IPL_DEPTH_8U]; a pixel is the list of its
    channel bytes, pixels are stored row by row. *)
Definition Pixel := list Z.

Record IplImage := mkImage {
  width : Z;
  height : Z;
  nChannels : Z;
  imageData : list (option Pixel)
}.

(** [cvCreateImage(cvSize(w, h), IPL_DEPTH_8U, n)] *)
Definition cvCreateImage (w h n : Z) : IplImage :=
  mkImage w h n (repeat None (Z.to_nat (w * h))).

(** [cvSet(arr, value)] on a matrix and on an image. *)
Definition cvSetMat (m : CvMat) (s : CvScalar) : CvMat :=
  mkMat (rows m) (cols m)
        (map (fun _ => Some (IEEE.round_to IEEE.prec32 IEEE.emax32 (val0 s)))
             (data m)).

Definition pixel_of_scalar (n : Z) (s : CvScalar) : Pixel :=
  map (fun v => saturate_u8 (cvRound v)) (firstn (Z.to_nat n) (components s)).

Definition cvSetImage (img : IplImage) (s : CvScalar) : IplImage :=
  mkImage (width img) (height img) (nChannels img)
          (map (fun _ => Some (pixel_of_scalar (nChannels img) s))
               (imageData img)).

(** [cvZero(arr)] on an image. *)
Definition cvZeroImage (img : IplImage) : IplImage :=
  mkImage (width img) (height img) (nChannels img)
          (map (fun _ => Some (repeat 0 (Z.to_nat (nChannels img))))
               (imageData img)).

(** Every cell of a matrix holds [v]; every pixel of an image is [p]. *)
Definition mat_all (v : spec_float) (m : CvMat) : Prop :=
  Forall (fun c => c = Some v) (data m).

Definition image_all (p : Pixel) (img : IplImage) : Prop :=
  Forall (fun c => c = Some p) (imageData img).

End OpenCV.

(* ================================================================= *)
(** * The scanner front end: [main]                                    *)
(* ================================================================= *)

Module Scanner.
Import OpenCV.

Local Open Scope string_scope.
Local Open Scope Z_scope.

(** ** Structures of cvStructuredLight.h *)

(** Modelled from the spec: [struct slParams] is declared in
    cvStructuredLight.h, which is not among the files at hand.  The spec's
    ScanParameters give the camera resolution (cam_w, cam_h) and the
    projector resolution (proj_w, proj_h); the other members are those
    [main] reads, under the names it uses. *)
Record slParams := mkParams {
  outdir : string;
  object : string;
  cam_w : Z;
  cam_h : Z;
  proj_w : Z;
  proj_h : Z;
  Logitech_9000 : bool
}.

(** Modelled from the spec: the class [FundamentalMatrix] of
    cvFundamentalMatrix.h is not among the files at hand.  The spec has it
    as a 3 x 3 matrix plus a "populated" flag: [None] as constructed by
    [new FundamentalMatrix()], [Some m] after [SetMatrix(m)]. *)
Definition FundamentalMatrix := option CvMat.

(** Modelled from the spec: [struct slCalib] is declared in
    cvStructuredLight.h as well.  The spec's Calibration has three
    sub-structures with validity flags, the derived centres, rays and
    planes, and the background model (depth image, reference image,
    mask); the members are those [main] assigns, under the names it uses. *)
Record slCalib := mkCalib {
  cam_intrinsic_calib : bool;
  proj_intrinsic_calib : bool;
  procam_extrinsic_calib : bool;
  cam_intrinsic : CvMat;
  cam_distortion : CvMat;
  cam_extrinsic : CvMat;
  proj_intrinsic : CvMat;
  proj_distortion : CvMat;
  proj_extrinsic : CvMat;
  cam_center : CvMat;
  proj_center : CvMat;
  cam_rays : CvMat;
  proj_rays : CvMat;
  proj_column_planes : CvMat;
  proj_row_planes : CvMat;
  fundMatrx : FundamentalMatrix;
  background_depth_map : CvMat;
  background_image : IplImage;
  background_mask : IplImage
}.

(** ** External collaborators

    Everything [main] calls and this repository does not define in the
    files at hand: the C runtime, the camera back end, the configuration
    reader and writer, [cvLoad], and the scanning and calibration
    engines.  [World] is whatever state they share (file system, devices,
    windows).  Functions that only observe the world ([fopen] for
    reading, [cvLoad], the Kinect finder) leave it unchanged; the others
    return the world they leave behind.  The engines receive
    [&sl_params] and [&sl_calib] and may rewrite both. *)

Record Platform := {
  World : Type;
  (** Kinect back end: [GetKinectCount()], [GetKinect() != NULL] *)
  GetKinectCount : World -> Z;
  GetKinect : World -> bool;
  (** [fopen(file, "r") != NULL] *)
  fopen_r : World -> string -> bool;
  readConfiguration : World -> string -> World * slParams;
  writeConfiguration : World -> string -> slParams -> World * slParams;
  (** [CVCamera] *)
  camera_Init : World -> slParams -> World * slParams * Z;
  camera_StartCapture : World -> World * Z;
  camera_QueryFrame : World -> World * option IplImage;
  camera_EndCapture : World -> World * Z;
  _mkdir : World -> string -> World * Z;
  system : World -> string -> World;
  cvLoad : World -> string -> option CvMat;
  (** [CVScanProCam] *)
  runStructuredLight : World -> slParams -> slCalib -> Z -> World * slParams * slCalib;
  runBackgroundCapture : World -> slParams -> slCalib -> World * slParams * slCalib;
  (** [CVCalibrateProCam] *)
  runCameraCalibration : World -> slParams -> slCalib -> World * slParams * slCalib;
  runProjectorCalibration : World -> slParams -> slCalib -> bool -> World * slParams * slCalib;
  runProCamExtrinsicCalibration : World -> slParams -> slCalib -> World * slParams * slCalib
}.

(** ** Observable calls

    The calls [main] makes to its collaborators, in program order.  Window
    creation and placement, [cvWaitKey(1)], the Kinect motor and LED
    set-up and the final releases return nothing [main] uses and are left
    out. *)

Inductive Event :=
| EvReadConfiguration (file : string)
| EvWriteConfiguration (file : string) (p : slParams)
| EvCameraInit
| EvStartCapture
| EvQueryFrame
| EvEndCapture
| EvMkdir (dir : string)
| EvSystem (cmd : string)
| EvShowImage (window : string) (img : IplImage)
| EvRunStructuredLight (scan_index : Z)
| EvRunBackgroundCapture
| EvRunCameraCalibration
| EvRunProjectorCalibration (simultaneous : bool)
| EvRunProCamExtrinsicCalibration.

(** How a run of [main] ends: it returns an exit code, or it stays
    blocked in [_getch()] because no further key is pressed. *)
Inductive Outcome :=
| Exited (code : Z)
| Waiting.

(** The two ways [main] leaves early during start-up: [return code;] and
    [_getch(); return code;]. *)
Inductive Stop :=
| Return (code : Z)
| GetchReturn (code : Z).

Inductive Res (A : Type) :=
| Val (a : A)
| Halt (s : Stop).
Arguments Val {A} a.
Arguments Halt {A} s.

(** Character constants and constants of the C headers. *)
Definition char (c : ascii) : Z := Z.of_N (N_of_ascii c).
Definition NULL : Z := 0.
Definition ESC : Z := 27.
Definition dquote : string := String "034"%char EmptyString.

(** [int] arithmetic of the 32-bit targets the program is built for. *)
Definition int_wrap (z : Z) : Z := (z + 2 ^ 31) mod 2 ^ 32 - 2 ^ 31.
Definition int_mul (a b : Z) : Z := int_wrap (a * b).
Definition int_succ (a : Z) : Z := int_wrap (a + 1).
Definition is_int (z : Z) : Prop := - 2 ^ 31 <= z < 2 ^ 31.

(** The two projector fill colours ([IPL_DEPTH_8U], 3 channels, BGR). *)
Definition splash_colour : CvScalar :=
  cvScalar3 (double_of_int 255) (double_of_int 0) (double_of_int 0).
Definition idle_colour : CvScalar :=
  cvScalar3 (double_of_int 255) (double_of_int 255) (double_of_int 255).

Definition blue : Pixel := [255; 0; 0].
Definition white : Pixel := [255; 255; 255].

(** The three statements that put the background model in its default
    state: [cvSet(depth_map, cvScalar(FLT_MAX)); cvZero(image);
    cvSet(mask, cvScalar(255));]. *)
Definition set_background (c : slCalib) (d : CvMat) (i m : IplImage) : slCalib :=
  mkCalib (cam_intrinsic_calib c) (proj_intrinsic_calib c) (procam_extrinsic_calib c)
          (cam_intrinsic c) (cam_distortion c) (cam_extrinsic c)
          (proj_intrinsic c) (proj_distortion c) (proj_extrinsic c)
          (cam_center c) (proj_center c) (cam_rays c) (proj_rays c)
          (proj_column_planes c) (proj_row_planes c) (fundMatrx c)
          d i m.

Definition clear_background (c : slCalib) : slCalib :=
  set_background c
    (cvSetMat (background_depth_map c) (cvScalar1 IEEE.FLT_MAX))
    (cvZeroImage (background_image c))
    (cvSetImage (background_mask c) (cvScalar1 (double_of_int 255))).

(** The state [main] keeps across the command loop. *)
Record Session := mkSession {
  configFile : string;
  sl_params : slParams;
  sl_calib : slCalib;
  proj_frame : IplImage;
  scan_index : Z
}.

(** ** The program, over an arbitrary platform *)

Section Program.
Context (P : Platform).

(** An action runs in a world, returns a value, and leaves a world and
    the calls it made. *)
Definition Act (A : Type) : Type := World P -> A * World P * list Event.

Definition ret {A} (a : A) : Act A := fun w => (a, w, []).

Definition bind {A B} (m : Act A) (k : A -> Act B) : Act B :=
  fun w => let '(a, w1, e1) := m w in
           let '(b, w2, e2) := k a w1 in
           (b, w2, (e1 ++ e2)%list).

Definition observe {A} (f : World P -> A) : Act A := fun w => (f w, w, []).

Definition call {A} (e : Event) (f : World P -> World P * A) : Act A :=
  fun w => let '(w1, a) := f w in (a, w1, [e]).

Definition emit (e : Event) : Act unit := fun w => (tt, w, [e]).

(** A start-up step either yields a value or leaves [main]. *)
Definition Proc (A : Type) : Type := Act (Res A).

Definition ok {A} (m : Act A) : Proc A := bind m (fun a => ret (Val a)).

Definition halt {A} (s : Stop) : Proc A := ret (Halt s).

Definition bindP {A B} (m : Proc A) (k : A -> Proc B) : Proc B :=
  bind m (fun r => match r with Val a => k a | Halt s => ret (Halt s) end).

Notation "x <- m ;; k" := (bind m (fun x => k))
  (at level 61, m at next level, right associativity).
Notation "x <-- m ;; k" := (bindP m (fun x => k))
  (at level 61, m at next level, right associativity).

(** *** Start-up *)

(** Lines 46-83: the camera object.  Only the Kinect back end (any
    [USE_CAMERA_ID] other than 0, 1, 2) can leave [main] here. *)
Definition create_camera (USE_CAMERA_ID : Z) : Proc unit :=
  if USE_CAMERA_ID =? 0 then ok (ret tt)
  else if USE_CAMERA_ID =? 1 then ok (ret tt)
  else if USE_CAMERA_ID =? 2 then ok (ret tt)
  else
    count <-- ok (observe (GetKinectCount P)) ;;
    if count <? 1 then halt (Return 0)
    else
      mKinect <-- ok (observe (GetKinect P)) ;;
      if negb mKinect then halt (Return 0)
      else ok (ret tt).

(** Lines 90-94: [argc] is the length of [argv]. *)
Definition select_config (argv : list string) : string :=
  if Z.of_nat (List.length argv) =? 1 then "./config.xml" else List.nth 1 argv "".

(** Lines 96-109. *)
Definition read_config (file : string) : Proc slParams :=
  pFile <-- ok (observe (fun w => fopen_r P w file)) ;;
  if pFile then
    ok (call (EvReadConfiguration file) (fun w => readConfiguration P w file))
  else halt (GetchReturn (-1)).

(** Lines 111-135. *)
Definition start_camera (p : slParams) : Proc slParams :=
  r <-- ok (call EvCameraInit
              (fun w => let '(w1, p1, retVal) := camera_Init P w p in
                        (w1, (p1, retVal)))) ;;
  let '(p, retVal) := r in
  if negb (retVal =? 0) then halt (Return (-1))
  else
    retVal <-- ok (call EvStartCapture (camera_StartCapture P)) ;;
    if negb (retVal =? 0) then halt (Return (-1))
    else
      cam_frame <-- ok (call EvQueryFrame (camera_QueryFrame P)) ;;
      match cam_frame with
      | None => halt (GetchReturn (-1))
      | Some _ => ok (ret p)
      end.

(** Lines 137-143. *)
Definition open_projector_window (p : slParams) : Act IplImage :=
  let proj_frame := cvCreateImage (proj_w p) (proj_h p) 3 in
  let proj_frame := cvSetImage proj_frame splash_colour in
  _ <- emit (EvShowImage "projWindow" proj_frame) ;;
  ret proj_frame.

(** Lines 145-159. *)
Definition create_output_directory (p : slParams) : Proc unit :=
  _ <-- ok (call (EvMkdir (outdir p)) (fun w => _mkdir P w (outdir p))) ;;
  let str := outdir p ++ "\" ++ object p in
  _ <-- ok (call (EvMkdir str) (fun w => _mkdir P w str)) ;;
  let cmd := "rd /s /q " ++ dquote ++ outdir p ++ "\" ++ object p ++ dquote in
  _ <-- ok (call (EvSystem cmd) (fun w => (system P w cmd, tt))) ;;
  r <-- ok (call (EvMkdir str) (fun w => _mkdir P w str)) ;;
  if negb (r =? 0) then halt (GetchReturn (-1)) else ok (ret tt).

(** Lines 161-181.  The three background members are assigned only at
    lines 230-232; until then they hold the empty placeholders. *)
Definition allocate_calibration (p : slParams) : slCalib :=
  let cam_nelems := int_mul (cam_w p) (cam_h p) in
  let proj_nelems := int_mul (proj_w p) (proj_h p) in
  mkCalib false false false
          (cvCreateMat 3 3) (cvCreateMat 5 1) (cvCreateMat 2 3)
          (cvCreateMat 3 3) (cvCreateMat 5 1) (cvCreateMat 2 3)
          (cvCreateMat 3 1) (cvCreateMat 3 1)
          (cvCreateMat 3 cam_nelems)
          (cvCreateMat 3 cam_nelems)
          (cvCreateMat (proj_w p) 4)
          (cvCreateMat (proj_h p) 4)
          None
          (mkMat 0 0 []) (mkImage 0 0 0 []) (mkImage 0 0 0 []).

(** Lines 183-194. *)
Definition load_cam_intrinsics (p : slParams) (c : slCalib) : Act slCalib :=
  let str1 := outdir p ++ "\calib\cam\cam_intrinsic.xml" in
  let str2 := outdir p ++ "\calib\cam\cam_distortion.xml" in
  observe (fun w =>
    match cvLoad P w str1, cvLoad P w str2 with
    | Some m1, Some m2 =>
        mkCalib true (proj_intrinsic_calib c) (procam_extrinsic_calib c)
                m1 m2 (cam_extrinsic c)
                (proj_intrinsic c) (proj_distortion c) (proj_extrinsic c)
                (cam_center c) (proj_center c) (cam_rays c) (proj_rays c)
                (proj_column_planes c) (proj_row_planes c) (fundMatrx c)
                (background_depth_map c) (background_image c) (background_mask c)
    | _, _ => c
    end).

(** Lines 196-201. *)
Definition load_fundamental_matrix (p : slParams) (c : slCalib) : Act slCalib :=
  let str1 := outdir p ++ "\calib\proj\fundamental_matrix.xml" in
  observe (fun w =>
    match cvLoad P w str1 with
    | Some m =>
        mkCalib (cam_intrinsic_calib c) (proj_intrinsic_calib c) (procam_extrinsic_calib c)
                (cam_intrinsic c) (cam_distortion c) (cam_extrinsic c)
                (proj_intrinsic c) (proj_distortion c) (proj_extrinsic c)
                (cam_center c) (proj_center c) (cam_rays c) (proj_rays c)
                (proj_column_planes c) (proj_row_planes c) (Some m)
                (background_depth_map c) (background_image c) (background_mask c)
    | None => c
    end).

(** Lines 203-213. *)
Definition load_proj_intrinsics (p : slParams) (c : slCalib) : Act slCalib :=
  let str1 := outdir p ++ "\calib\proj\proj_intrinsic.xml" in
  let str2 := outdir p ++ "\calib\proj\proj_distortion.xml" in
  observe (fun w =>
    match cvLoad P w str1, cvLoad P w str2 with
    | Some m1, Some m2 =>
        mkCalib (cam_intrinsic_calib c) true (procam_extrinsic_calib c)
                (cam_intrinsic c) (cam_distortion c) (cam_extrinsic c)
                m1 m2 (proj_extrinsic c)
                (cam_center c) (proj_center c) (cam_rays c) (proj_rays c)
                (proj_column_planes c) (proj_row_planes c) (fundMatrx c)
                (background_depth_map c) (background_image c) (background_mask c)
    | _, _ => c
    end).

(** Lines 215-227. *)
Definition load_procam_extrinsics (p : slParams) (c : slCalib) : Act slCalib :=
  let str1 := outdir p ++ "\calib\proj\cam_extrinsic.xml" in
  let str2 := outdir p ++ "\calib\proj\proj_extrinsic.xml" in
  observe (fun w =>
    if cam_intrinsic_calib c && proj_intrinsic_calib c then
      match cvLoad P w str1, cvLoad P w str2 with
      | Some m1, Some m2 =>
          mkCalib (cam_intrinsic_calib c) (proj_intrinsic_calib c) true
                  (cam_intrinsic c) (cam_distortion c) m1
                  (proj_intrinsic c) (proj_distortion c) m2
                  (cam_center c) (proj_center c) (cam_rays c) (proj_rays c)
                  (proj_column_planes c) (proj_row_planes c) (fundMatrx c)
                  (background_depth_map c) (background_image c) (background_mask c)
      | _, _ => c
      end
    else c).

Definition load_calibration (p : slParams) (c : slCalib) : Act slCalib :=
  c <- load_cam_intrinsics p c ;;
  c <- load_fundamental_matrix p c ;;
  c <- load_proj_intrinsics p c ;;
  load_procam_extrinsics p c.

(** Lines 229-235. *)
Definition init_background (p : slParams) (c : slCalib) : slCalib :=
  clear_background
    (set_background c
       (cvCreateMat (cam_h p) (cam_w p))
       (cvCreateImage (cam_w p) (cam_h p) 3)
       (cvCreateImage (cam_w p) (cam_h p) 1)).

(** Lines 44-238: everything before the command loop. *)
Definition startup (USE_CAMERA_ID : Z) (argv : list string) : Proc Session :=
  _ <-- create_camera USE_CAMERA_ID ;;
  let configFile := select_config argv in
  p <-- read_config configFile ;;
  p <-- start_camera p ;;
  proj_frame <-- ok (open_projector_window p) ;;
  _ <-- create_output_directory p ;;
  let c := allocate_calibration p in
  c <-- ok (load_calibration p c) ;;
  let c := init_background p c in
  ok (ret (mkSession configFile p c proj_frame 0)).

(** *** The command loop *)

(** What one pass through the body of [while(1)] decides: [break], or go
    on to [_getch()] with the value left in [cvKey]. *)
Inductive Step :=
| Break (s : Session)
| Continue (s : Session) (cvKey : Z).

(** A call [engine(&sl_params, &sl_calib, ...)]. *)
Definition engine (e : Event)
    (f : World P -> slParams -> slCalib -> World P * slParams * slCalib)
    (s : Session) : Act Session :=
  r <- call e (fun w => let '(w1, p1, c1) := f w (sl_params s) (sl_calib s) in
                        (w1, (p1, c1))) ;;
  ret (mkSession (configFile s) (fst r) (snd r) (proj_frame s) (scan_index s)).

(** Lines 244-299: the idle frame and the keystroke dispatch. *)
Definition iteration (s : Session) (cvKey : Z) : Act Step :=
  let s := mkSession (configFile s) (sl_params s) (sl_calib s)
                     (cvSetImage (proj_frame s) idle_colour) (scan_index s) in
  _ <- emit (EvShowImage "projWindow" (proj_frame s)) ;;
  if cvKey =? 27 then
    p <- call (EvWriteConfiguration (configFile s) (sl_params s))
              (fun w => writeConfiguration P w (configFile s) (sl_params s)) ;;
    _ <- (if Logitech_9000 p
          then call (EvSystem "Bayer.exe 0 > nul")
                    (fun w => (system P w "Bayer.exe 0 > nul", tt))
          else ret tt) ;;
    ret (Break (mkSession (configFile s) p (sl_calib s) (proj_frame s) (scan_index s)))
  else if cvKey =? char "s" then
    let s := mkSession (configFile s) (sl_params s) (sl_calib s)
                       (proj_frame s) (int_succ (scan_index s)) in
    s <- engine (EvRunStructuredLight (scan_index s))
                (fun w p c => runStructuredLight P w p c (scan_index s)) s ;;
    ret (Continue s NULL)
  else if cvKey =? char "b" then
    let s := mkSession (configFile s) (sl_params s) (clear_background (sl_calib s))
                       (proj_frame s) (scan_index s) in
    s <- engine EvRunBackgroundCapture (runBackgroundCapture P) s ;;
    ret (Continue s NULL)
  else if cvKey =? char "r" then
    let s := mkSession (configFile s) (sl_params s) (clear_background (sl_calib s))
                       (proj_frame s) (scan_index s) in
    ret (Continue s NULL)
  else if cvKey =? char "c" then
    s <- engine EvRunCameraCalibration (runCameraCalibration P) s ;;
    ret (Continue s NULL)
  else if cvKey =? char "p" then
    s <- engine (EvRunProjectorCalibration false)
                (fun w p c => runProjectorCalibration P w p c false) s ;;
    ret (Continue s NULL)
  else if cvKey =? char "a" then
    s <- engine (EvRunProjectorCalibration true)
                (fun w p c => runProjectorCalibration P w p c true) s ;;
    ret (Continue s NULL)
  else if cvKey =? char "e" then
    s <- engine EvRunProCamExtrinsicCalibration (runProCamExtrinsicCalibration P) s ;;
    ret (Continue s NULL)
  else ret (Continue s cvKey).

(** What a run leaves behind. *)
Record Run := mkRun {
  outcome : Outcome;
  trace : list Event;
  last_world : World P
}.

(** Lines 240-352.  [keys] are the keystrokes [_getch()] will deliver; one
    is consumed at the end of every pass, so the loop is a recursion on
    them.  After [break] the camera is stopped and [main] returns 0. *)
Fixpoint command_loop (keys : list Z) (s : Session) (cvKey : Z)
    (w : World P) (done : list Event) {struct keys} : Run :=
  let '(step, w1, ev) := iteration s cvKey w in
  match step with
  | Break _ =>
      let '(w2, retVal) := camera_EndCapture P w1 in
      mkRun (Exited 0) (done ++ ev ++ [EvEndCapture])%list w2
  | Continue s1 cvKey1 =>
      match keys with
      | [] => mkRun Waiting (done ++ ev)%list w1
      | k :: keys1 => command_loop keys1 s1 k w1 (done ++ ev)%list
      end
  end.

(** Leaving [main] during start-up. *)
Definition leave (keys : list Z) (st : Stop) : Outcome :=
  match st with
  | Return code => Exited code
  | GetchReturn code =>
      match keys with
      | [] => Waiting
      | _ :: _ => Exited code
      end
  end.

(** [int main(int argc, char* argv[])] *)
Definition main (USE_CAMERA_ID : Z) (argv : list string) (keys : list Z)
    (w : World P) : Run :=
  let '(r, w1, ev) := startup USE_CAMERA_ID argv w in
  match r with
  | Halt st => mkRun (leave keys st) ev w1
  | Val s => command_loop keys s NULL w1 ev
  end.

End Program.

Arguments outcome {P} r.
Arguments trace {P} r.
Arguments last_world {P} r.

End Scanner.

(* ================================================================= *)
(** * A concrete platform                                              *)
(* ================================================================= *)

(** A rig with no state of its own, set up by a handful of switches: how many
    Kinects answer, whether the configuration file is there, what the camera
    returns, which calibration files are stored.  Its engines return the
    parameters and calibration they were given.  It serves to run [main] on
    concrete inputs. *)

Module Bench.
Import OpenCV Scanner.

Local Open Scope string_scope.
Local Open Scope Z_scope.

Record Rig := mkRig {
  kinects : Z;
  kinect_opens : bool;
  config : option slParams;
  init_code : Z;
  start_code : Z;
  first_frame : bool;
  mkdir_code : Z;
  stored : string -> option CvMat
}.

Definition params : slParams :=
  mkParams "./output" "obj" 4 3 2 2 false.

Definition platform (r : Rig) : Platform := {|
  World := unit;
  GetKinectCount := fun _ => kinects r;
  GetKinect := fun _ => kinect_opens r;
  fopen_r := fun _ _ => match config r with Some _ => true | None => false end;
  readConfiguration := fun w _ =>
    (w, match config r with Some p => p | None => params end);
  writeConfiguration := fun w _ p => (w, p);
  camera_Init := fun w p => (w, p, init_code r);
  camera_StartCapture := fun w => (w, start_code r);
  camera_QueryFrame := fun w =>
    (w, if first_frame r then Some (cvCreateImage 4 3 3) else None);
  camera_EndCapture := fun w => (w, 0);
  _mkdir := fun w _ => (w, mkdir_code r);
  system := fun w _ => w;
  cvLoad := fun _ => stored r;
  runStructuredLight := fun w p c _ => (w, p, c);
  runBackgroundCapture := fun w p c => (w, p, c);
  runCameraCalibration := fun w p c => (w, p, c);
  runProjectorCalibration := fun w p c _ => (w, p, c);
  runProCamExtrinsicCalibration := fun w p c => (w, p, c)
|}.

(** Everything in place: a camera that starts, a configuration file, and
    every calibration file stored. *)
Definition calibrated : Rig :=
  mkRig 1 true (Some params) 0 0 true 0 (fun _ => Some (cvCreateMat 3 3)).

(** The same rig with no calibration file stored yet. *)
Definition fresh : Rig :=
  mkRig 1 true (Some params) 0 0 true 0 (fun _ => None).

(** Only the two extrinsic files are stored. *)
Definition extrinsics_only : Rig :=
  mkRig 1 true (Some params) 0 0 true 0
        (fun f => if String.eqb f "./output\calib\proj\cam_extrinsic.xml"
                  || String.eqb f "./output\calib\proj\proj_extrinsic.xml"
                  then Some (cvCreateMat 2 3) else None).

(** The Kinect build with no device attached, and with a device that
    cannot be opened. *)
Definition no_kinect : Rig :=
  mkRig 0 false (Some params) 0 0 true 0 (fun _ => None).
Definition kinect_unopened : Rig :=
  mkRig 1 false (Some params) 0 0 true 0 (fun _ => None).

(** Start-up failures of the other kinds. *)
Definition no_config : Rig :=
  mkRig 1 true None 0 0 true 0 (fun _ => None).
Definition init_fails : Rig :=
  mkRig 1 true (Some params) 1 0 true 0 (fun _ => None).
Definition capture_fails : Rig :=
  mkRig 1 true (Some params) 0 1 true 0 (fun _ => None).
Definition no_frame : Rig :=
  mkRig 1 true (Some params) 0 0 false 0 (fun _ => None).

Definition argv : list string := ["cvStructuredLight.exe"].

(** The session and the calls of a start-up on rig [r], built for the
    camera back end [id]. *)
Definition session (id : Z) (r : Rig) : Session :=
  match fst (fst (startup (platform r) id argv tt)) with
  | Val s => s
  | Halt _ => mkSession "" params (allocate_calibration params) (cvCreateImage 0 0 3) 0
  end.

Definition calls (id : Z) (r : Rig) : list Event :=
  snd (startup (platform r) id argv tt).

End Bench.


(* ================================================================= *)
(** * Reading a run                                                    *)
(* ================================================================= *)

Module Observe.
Import OpenCV Scanner.

Local Open Scope string_scope.
Local Open Scope Z_scope.

(** The projector frame as created at line 139-140, and as it is once the
    loop has repainted it. *)
Definition splash_frame (p : slParams) : IplImage :=
  cvSetImage (cvCreateImage (proj_w p) (proj_h p) 3) splash_colour.

Definition idle_frame (p : slParams) : IplImage :=
  cvSetImage (splash_frame p) idle_colour.

(** The calibration after lines 161-227 in world [w]. *)
Definition loaded (P : Platform) (p : slParams) (w : World P) : slCalib :=
  fst (fst (load_calibration P p (allocate_calibration p) w)).

(** The calls of a start-up that reaches the command loop. *)
Definition startup_events (file : string) (p : slParams) : list Event :=
  [EvReadConfiguration file; EvCameraInit; EvStartCapture; EvQueryFrame;
   EvShowImage "projWindow" (splash_frame p);
   EvMkdir (outdir p);
   EvMkdir (outdir p ++ "\" ++ object p);
   EvSystem ("rd /s /q " ++ dquote ++ outdir p ++ "\" ++ object p ++ dquote);
   EvMkdir (outdir p ++ "\" ++ object p)].

(** The frames sent to the projector window, in order. *)
Definition shown (ev : list Event) : list IplImage :=
  flat_map (fun e => match e with EvShowImage _ img => [img] | _ => [] end) ev.

(** The files given to [writeConfiguration] and to [readConfiguration]. *)
Definition config_writes (ev : list Event) : list string :=
  flat_map (fun e => match e with EvWriteConfiguration f _ => [f] | _ => [] end) ev.

Definition config_reads (ev : list Event) : list string :=
  flat_map (fun e => match e with EvReadConfiguration f => [f] | _ => [] end) ev.

(** The engine calls: scanning, background capture and the calibrations. *)
Definition is_engine_call (e : Event) : bool :=
  match e with
  | EvRunStructuredLight _ | EvRunBackgroundCapture | EvRunCameraCalibration
  | EvRunProjectorCalibration _ | EvRunProCamExtrinsicCalibration => true
  | _ => false
  end.

Definition engine_calls (ev : list Event) : list Event := filter is_engine_call ev.

(** The three buffers of the background model. *)
Definition background (c : slCalib) : CvMat * IplImage * IplImage :=
  (background_depth_map c, background_image c, background_mask c).

(** The background model in its default state for a [w] x [h] camera. *)
Definition default_background (w h : Z) : CvMat * IplImage * IplImage :=
  (mkMat h w (repeat (Some IEEE.FLT_MAX) (Z.to_nat (h * w))),
   mkImage w h 3 (repeat (Some [0; 0; 0]) (Z.to_nat (w * h))),
   mkImage w h 1 (repeat (Some [255]) (Z.to_nat (w * h)))).

(** The three validity flags, and the four ray and plane tables. *)
Definition flags (c : slCalib) : bool * bool * bool :=
  (cam_intrinsic_calib c, proj_intrinsic_calib c, procam_extrinsic_calib c).

Definition tables (c : slCalib) : CvMat * CvMat * CvMat * CvMat :=
  (cam_rays c, proj_rays c, proj_column_planes c, proj_row_planes c).

(** Both files of a pair can be loaded. *)
Definition stored_pair (P : Platform) (w : World P) (f1 f2 : string) : bool :=
  match cvLoad P w f1, cvLoad P w f2 with
  | Some _, Some _ => true
  | _, _ => false
  end.

(** The session a pass of the loop body leaves. *)
Definition step_session (st : Step) : Session :=
  match st with
  | Break s => s
  | Continue s _ => s
  end.

Definition is_break (st : Step) : bool :=
  match st with
  | Break _ => true
  | Continue _ _ => false
  end.

(** The run from the point where the loop calls [_getch()] (line 315) in
    session [s] and world [w], after the calls [done]: blocked when no
    keystroke is left; otherwise the keystroke goes to [cvKey] and the loop
    body runs again. *)
Definition at_getch {P : Platform} (keys : list Z) (s : Session) (w : World P)
    (done : list Event) : Run P :=
  match keys with
  | [] => mkRun P Waiting done w
  | k :: rest => command_loop P rest s k w done
  end.

(** From the specification's words, for comparison with the source's
    [clear_background]: the calibration [c] with its background model "reset
    to defaults", written out buffer by buffer.  The depth map, the
    reference image and the mask keep their sizes; every depth is FLT_MAX,
    every pixel of the reference image is zero on each channel, and every
    pixel of the mask is 255 (followed by zeros, should the mask have more
    than one channel).  Nothing else of the calibration differs from [c]. *)
Definition with_default_background (c : slCalib) : slCalib :=
  let d := background_depth_map c in
  let i := background_image c in
  let m := background_mask c in
  set_background c
    (mkMat (rows d) (cols d) (repeat (Some IEEE.FLT_MAX) (List.length (data d))))
    (mkImage (width i) (height i) (nChannels i)
       (repeat (Some (repeat 0 (Z.to_nat (nChannels i)))) (List.length (imageData i))))
    (mkImage (width m) (height m) (nChannels m)
       (repeat (Some (firstn (Z.to_nat (nChannels m)) [255; 0; 0; 0]))
               (List.length (imageData m)))).

(** The session with the projector frame repainted (line 245). *)
Definition repainted (s : Session) : Session :=
  mkSession (configFile s) (sl_params s) (sl_calib s)
            (cvSetImage (proj_frame s) idle_colour) (scan_index s).

(** An action that makes no call to [writeConfiguration]. *)
Definition quiet {P : Platform} {A : Type} (m : Act P A) : Prop :=
  forall w, config_writes (snd (m w)) = [].

(** The escape key is the pending keystroke or among those to come. *)
Definition escape_pressed (cvKey : Z) (keys : list Z) : bool :=
  (cvKey =? ESC) || existsb (Z.eqb ESC) keys.

(** The value left in [cvKey] when the pass goes on to [_getch()]. *)
Definition step_key (st : Step) : option Z :=
  match st with
  | Break _ => None
  | Continue _ k => Some k
  end.

(** The three background buffers have the dimensions they are created with
    for a [w] x [h] camera. *)
Definition background_shape (w h : Z) (c : slCalib) : Prop :=
  let d := background_depth_map c in
  let i := background_image c in
  let m := background_mask c in
  (rows d = h /\ cols d = w /\ List.length (data d) = Z.to_nat (h * w)) /\
  (width i = w /\ height i = h /\ nChannels i = 3 /\
   List.length (imageData i) = Z.to_nat (w * h)) /\
  (width m = w /\ height m = h /\ nChannels m = 1 /\
   List.length (imageData m) = Z.to_nat (w * h)).

(** The scan indices handed to [runStructuredLight], in order. *)
Definition scan_indices (ev : list Event) : list Z :=
  flat_map (fun e => match e with EvRunStructuredLight i => [i] | _ => [] end) ev.

(** How many of the keystrokes are 's' before the first ESC. *)
Fixpoint scans_before_escape (keys : list Z) : nat :=
  match keys with
  | [] => 0%nat
  | k :: rest =>
      if k =? ESC then 0%nat
      else if k =? char "s" then S (scans_before_escape rest)
      else scans_before_escape rest
  end.

(** The engine call a pass makes for keystroke [k] when the scan counter
    stands at [idx], if any. *)
Definition call_of_key (idx : Z) (k : Z) : list Event :=
  if k =? char "s" then [EvRunStructuredLight (int_succ idx)]
  else if k =? char "b" then [EvRunBackgroundCapture]
  else if k =? char "c" then [EvRunCameraCalibration]
  else if k =? char "p" then [EvRunProjectorCalibration false]
  else if k =? char "a" then [EvRunProjectorCalibration true]
  else if k =? char "e" then [EvRunProCamExtrinsicCalibration]
  else [].

(** The engine calls the keystrokes ask for, up to the first ESC. *)
Fixpoint calls_of_keys (idx : Z) (keys : list Z) : list Event :=
  match keys with
  | [] => []
  | k :: rest =>
      if k =? ESC then []
      else (call_of_key idx k
            ++ calls_of_keys (if k =? char "s" then int_succ idx else idx) rest)%list
  end.

Definition is_end_capture (e : Event) : bool :=
  match e with EvEndCapture => true | _ => false end.

(** The calls that are made only from the command loop and after it. *)
Definition loop_only (e : Event) : bool :=
  is_engine_call e || is_end_capture e.

(** An action none of whose calls satisfies [bad]. *)
Definition avoids {P : Platform} {A : Type} (bad : Event -> bool) (m : Act P A) : Prop :=
  forall w, existsb bad (snd (m w)) = false.

(** A validity flag and the two matrices it guards: both matrices are the
    ones stored in the two files, or both are still as allocated. *)
Definition guarded (flag : bool) (m1 m2 : CvMat) (f1 f2 : option CvMat)
    (blank1 blank2 : CvMat) : Prop :=
  if flag then f1 = Some m1 /\ f2 = Some m2
  else m1 = blank1 /\ m2 = blank2.

End Observe.

(* ================================================================= *)
(** * Raw depth readings                                               *)
(* ================================================================= *)

(** The sensor delivers 11-bit readings, of which the largest, 0x07ff, is
    the "no reading" value [Kinect_IsDepthValid] rejects.  Statements about
    the binary32 results on all of them are settled by evaluating the
    functions on each reading. *)

Module Raw.
Import Kinect.

Definition is_raw_depth (d : Z) : Prop := 0 <= d <= 0x07ff.

(** [f] holds of 0, ..., n - 1. *)
Fixpoint all_below (n : nat) (f : Z -> bool) : bool :=
  match n with
  | O => true
  | S k => f (Z.of_nat k) && all_below k f
  end.

(** The same floating-point datum. *)
Definition same_float (a b : spec_float) : bool :=
  match a, b with
  | S754_zero s, S754_zero s' => Bool.eqb s s'
  | S754_infinity s, S754_infinity s' => Bool.eqb s s'
  | S754_nan, S754_nan => true
  | S754_finite s m e, S754_finite s' m' e' =>
      Bool.eqb s s' && Pos.eqb m m' && Z.eqb e e'
  | _, _ => false
  end.

Definition is_finite_nonzero (v : spec_float) : bool :=
  match v with S754_finite _ _ _ => true | _ => false end.

(** What is checked of [Kinect_DepthValueToZ] at reading [d]. *)
Definition depth_to_Z_check (d : Z) : bool :=
  let v := @Kinect_DepthValueToZ IEEE.arith d in
  is_finite_nonzero v
  && Bool.eqb (SFltb (IEEE.f32 0) v) (d <=? 1084)
  && Bool.eqb (SFltb v (IEEE.f32 0)) (1085 <=? d)
  && ((d =? 1084) || SFltb v (@Kinect_DepthValueToZ IEEE.arith (d + 1))).

(** What is checked of the two depth-axis maps at reading [d]. *)
Definition depth_axis_check (d : Z) : bool :=
  same_float (@world_axis_to_depth IEEE.arith
                (@depth_axis_to_world IEEE.arith (IEEE.f32 d)))
             (IEEE.f32 d).

End Raw.

(* ================================================================= *)
(** * Properties of the Kinect helpers                                 *)
(* ================================================================= *)

Import Kinect.

Section KinectFacts.

Local Open Scope Z_scope.

(** C8.  For every 16-bit raw depth value [d], [Kinect_IsDepthValid d]
    returns true exactly when [d > 0] and [d <> 0x07ff]; so the readings
    it rejects are exactly 0 and 2047. *)
Theorem Kinect_IsDepthValid_iff (d : Z) (Hd : is_ushort d) :
  (Kinect_IsDepthValid d = true <-> d > 0 /\ d <> 2047) /\
  (Kinect_IsDepthValid d = false <-> d = 0 \/ d = 2047).
Proof.
  unfold is_ushort in Hd. unfold Kinect_IsDepthValid.
  destruct (Z.gtb_spec d 0) as [Hpos | Hnpos];
    destruct (Z.eqb_spec d 0x07ff) as [Heq | Hne]; cbn;
    (split; split; intro H; try discriminate; try lia).
Qed.

Lemma Kinect_IsDepthValid_iff_witness :
  is_ushort 2047 /\
  ((Kinect_IsDepthValid 2047 = true <-> 2047 > 0 /\ 2047 <> 2047) /\
   (Kinect_IsDepthValid 2047 = false <-> 2047 = 0 \/ 2047 = 2047)).
Proof.
  assert (H : is_ushort 2047) by (unfold is_ushort; lia).
  split; [exact H | exact (Kinect_IsDepthValid_iff 2047 H)].
Defined.

(** ** IEEE comparisons *)

Lemma SFcompare_swap (a b : spec_float) (c : comparison) :
  SFcompare a b = Some c -> SFcompare b a = Some (CompOpp c).
Proof.
  destruct a as [sa | sa | | sa ma ea], b as [sb | sb | | sb mb eb];
    cbn; intro H; try discriminate; injection H as <-;
    repeat match goal with s : bool |- _ => destruct s end;
    cbn; try reflexivity.
  all: rewrite (Z.compare_antisym ea eb);
    destruct (ea ?= eb) eqn:He; cbn; try reflexivity;
    rewrite (Pos.compare_cont_antisym ma mb Eq); cbn;
    rewrite ?CompOpp_involutive; reflexivity.
Qed.









(** C10.  In exact arithmetic the depth-axis map of [KinectDepthToWorld],
    z |-> -(z - 200), and the one [KinectWorldToRGBSpace] starts with,
    z |-> -z + 200, undo each other. *)
Theorem depth_axis_maps_inverse (x y z : Q) :
  (@world_axis_to_depth Exact.arith (snd (@KinectDepthToWorld Exact.arith x y z)) == z)%Q /\
  (@depth_axis_to_world Exact.arith (@world_axis_to_depth Exact.arith z) == z)%Q.
Proof.
  unfold KinectDepthToWorld, world_axis_to_depth, depth_axis_to_world.
  cbn [snd fst fadd fsub fmul float_of_int Exact.arith].
  split; ring.
Qed.

(** In binary32 the round trip is not exact: 0.001f comes back as
    8650752 * 2^-33, about 0.001007. *)
Lemma depth_axis_round_trip_rounds :
  @float_dec IEEE.arith 1 3 = S754_finite false 8589935 (-33) /\
  @world_axis_to_depth IEEE.arith (@depth_axis_to_world IEEE.arith (@float_dec IEEE.arith 1 3))
  = S754_finite false 8650752 (-33).
Proof. vm_compute. split; reflexivity. Qed.

End KinectFacts.

Section ScannerFacts.

Import OpenCV Scanner Observe.
Local Open Scope string_scope.
Local Open Scope Z_scope.

Context (P : Platform).

(** ** Reading the action monad *)

Lemma bindP_Val {A B : Type} (m : Proc P A) (k : A -> Proc P B)
    (w w2 : World P) (b : B) (e : list Event) :
  bindP P m k w = (Val b, w2, e) ->
  exists a wa ea eb,
    m w = (Val a, wa, ea) /\ k a wa = (Val b, w2, eb) /\ e = (ea ++ eb)%list.
Proof.
  unfold bindP, bind. destruct (m w) as [[r wa] ea]. destruct r as [a | st].
  - destruct (k a wa) as [[rb wb] eb] eqn:Hk. intro H. injection H as -> -> <-.
    exists a, wa, ea, eb. auto.
  - unfold ret. intro H. discriminate.
Qed.

Lemma ok_inv {A : Type} (m : Act P A) (w w1 : World P) (r : Res A) (e : list Event) :
  ok P m w = (r, w1, e) -> exists a, m w = (a, w1, e) /\ r = Val a.
Proof.
  unfold ok, bind, ret. destruct (m w) as [[a wa] ea].
  rewrite app_nil_r. intro H. injection H as <- <- <-. exists a. auto.
Qed.

Lemma create_camera_Val (id : Z) (w w1 : World P) (u : unit) (e : list Event) :
  create_camera P id w = (Val u, w1, e) -> w1 = w /\ e = [].
Proof.
  unfold create_camera, bindP, ok, halt, bind, ret, observe. intro H.
  destruct (id =? 0); [inversion H; auto |].
  destruct (id =? 1); [inversion H; auto |].
  destruct (id =? 2); [inversion H; auto |].
  cbn in H.
  destruct (GetKinectCount P w <? 1); cbn in H; [discriminate |].
  destruct (negb (GetKinect P w)); cbn in H; [discriminate |].
  inversion H; auto.
Qed.

Lemma read_config_Val (f : string) (w w1 : World P) (p : slParams) (e : list Event) :
  read_config P f w = (Val p, w1, e) ->
  readConfiguration P w f = (w1, p) /\ e = [EvReadConfiguration f].
Proof.
  unfold read_config, bindP, ok, halt, bind, ret, observe, call. intro H. cbn in H.
  destruct (fopen_r P w f); cbn in H; [| discriminate].
  destruct (readConfiguration P w f) as [wr pr]. cbn in H.
  inversion H; subst. auto.
Qed.

Lemma start_camera_Val (p p1 : slParams) (w w1 : World P) (e : list Event) :
  start_camera P p w = (Val p1, w1, e) ->
  e = [EvCameraInit; EvStartCapture; EvQueryFrame] /\
  exists wi, camera_Init P w p = (wi, p1, 0).
Proof.
  unfold start_camera, bindP, ok, halt, bind, ret, observe, call. intro H. cbn in H.
  destruct (camera_Init P w p) as [[wi pi] ri]. cbn in H.
  destruct (ri =? 0) eqn:Hri; cbn in H; [| discriminate].
  apply Z.eqb_eq in Hri. subst ri.
  destruct (camera_StartCapture P wi) as [ws rs]. cbn in H.
  destruct (rs =? 0); cbn in H; [| discriminate].
  destruct (camera_QueryFrame P ws) as [wq fq]. cbn in H.
  destruct fq; cbn in H; [| discriminate].
  inversion H; subst. split; [reflexivity | exists wi; reflexivity].
Qed.

Lemma create_output_directory_Val (p : slParams) (w w1 : World P) (u : unit)
    (e : list Event) :
  create_output_directory P p w = (Val u, w1, e) ->
  e = [EvMkdir (outdir p);
       EvMkdir (outdir p ++ "\" ++ object p);
       EvSystem ("rd /s /q " ++ dquote ++ outdir p ++ "\" ++ object p ++ dquote);
       EvMkdir (outdir p ++ "\" ++ object p)].
Proof.
  unfold create_output_directory, bindP, ok, halt, bind, ret, observe, call. intro H. cbn in H.
  destruct (_mkdir P w (outdir p)) as [wa ra]. cbn in H.
  destruct (_mkdir P wa _) as [wb rb]. cbn in H.
  destruct (_mkdir P (system P wb _) _) as [wc rc]. cbn in H.
  destruct (rc =? 0); cbn in H; [| discriminate].
  inversion H; subst. reflexivity.
Qed.

(** ** What start-up leaves behind *)

Lemma triple_eq {A B C : Type} (a a' : A) (b b' : B) (c c' : C) :
  (a, b, c) = (a', b', c') -> a = a' /\ b = b' /\ c = c'.
Proof. intro H. injection H. auto. Qed.

Lemma load_calibration_loaded (p : slParams) (w : World P) :
  load_calibration P p (allocate_calibration p) w = (loaded P p w, w, []).
Proof. reflexivity. Qed.

Lemma startup_inv (id : Z) (argv : list string) (w w1 : World P) (s : Session)
    (ev : list Event) :
  startup P id argv w = (Val s, w1, ev) ->
  exists p,
    s = mkSession (select_config argv) p (init_background p (loaded P p w1))
                  (splash_frame p) 0 /\
    ev = startup_events (select_config argv) p.
Proof.
  unfold startup. intro H.
  apply bindP_Val in H as (u & wa & ea & eb & Hcam & H & ->).
  apply create_camera_Val in Hcam as [-> ->].
  apply bindP_Val in H as (p0 & wb & eb1 & eb2 & Hcfg & H & ->).
  apply read_config_Val in Hcfg as [Hread ->].
  apply bindP_Val in H as (p & wc & ec1 & ec2 & Hstart & H & ->).
  apply start_camera_Val in Hstart as [-> _].
  apply bindP_Val in H as (fr & wd & ed1 & ed2 & Hwin & H & ->).
  apply ok_inv in Hwin as (fr' & Hwin & Hfr). injection Hfr as ->.
  change (open_projector_window P p wc)
    with (splash_frame p, wc, [EvShowImage "projWindow" (splash_frame p)]) in Hwin.
  apply triple_eq in Hwin as (<- & <- & <-).
  apply bindP_Val in H as (u2 & we & ee1 & ee2 & Hdir & H & ->).
  apply create_output_directory_Val in Hdir as ->.
  apply bindP_Val in H as (c & wf & ef1 & ef2 & Hload & H & ->).
  apply ok_inv in Hload as (c' & Hload & Hc). injection Hc as ->.
  rewrite load_calibration_loaded in Hload.
  apply triple_eq in Hload as (<- & <- & <-).
  apply ok_inv in H as (s' & H & Hs). injection Hs as ->.
  unfold ret in H. apply triple_eq in H as (<- & <- & <-).
  exists p. split; reflexivity.
Qed.

Lemma init_background_flags (p : slParams) (c : slCalib) :
  cam_intrinsic_calib (init_background p c) = cam_intrinsic_calib c /\
  proj_intrinsic_calib (init_background p c) = proj_intrinsic_calib c /\
  procam_extrinsic_calib (init_background p c) = procam_extrinsic_calib c.
Proof. repeat split. Qed.

(** Each loader, field by field. *)

Lemma load_cam_intrinsics_fields (p : slParams) (c : slCalib) (w : World P) :
  let c' := fst (fst (load_cam_intrinsics P p c w)) in
  flags c' = (cam_intrinsic_calib c
              || stored_pair P w (outdir p ++ "\calib\cam\cam_intrinsic.xml")
                                 (outdir p ++ "\calib\cam\cam_distortion.xml"),
              proj_intrinsic_calib c, procam_extrinsic_calib c) /\
  tables c' = tables c.
Proof.
  unfold load_cam_intrinsics, observe, stored_pair, flags, tables. cbn [fst snd].
  destruct (cvLoad P w _); [destruct (cvLoad P w _) |];
    cbn; rewrite ?orb_true_r, ?orb_false_r; split; reflexivity.
Qed.

Lemma load_fundamental_matrix_fields (p : slParams) (c : slCalib) (w : World P) :
  let c' := fst (fst (load_fundamental_matrix P p c w)) in
  flags c' = flags c /\ tables c' = tables c.
Proof.
  unfold load_fundamental_matrix, observe, flags, tables. cbn [fst snd].
  destruct (cvLoad P w _); split; reflexivity.
Qed.

Lemma load_proj_intrinsics_fields (p : slParams) (c : slCalib) (w : World P) :
  let c' := fst (fst (load_proj_intrinsics P p c w)) in
  flags c' = (cam_intrinsic_calib c,
              proj_intrinsic_calib c
              || stored_pair P w (outdir p ++ "\calib\proj\proj_intrinsic.xml")
                                 (outdir p ++ "\calib\proj\proj_distortion.xml"),
              procam_extrinsic_calib c) /\
  tables c' = tables c.
Proof.
  unfold load_proj_intrinsics, observe, stored_pair, flags, tables. cbn [fst snd].
  destruct (cvLoad P w _); [destruct (cvLoad P w _) |];
    cbn; rewrite ?orb_true_r, ?orb_false_r; split; reflexivity.
Qed.

Lemma load_procam_extrinsics_fields (p : slParams) (c : slCalib) (w : World P) :
  let c' := fst (fst (load_procam_extrinsics P p c w)) in
  flags c' = (cam_intrinsic_calib c, proj_intrinsic_calib c,
              procam_extrinsic_calib c
              || (cam_intrinsic_calib c && proj_intrinsic_calib c
                  && stored_pair P w (outdir p ++ "\calib\proj\cam_extrinsic.xml")
                                     (outdir p ++ "\calib\proj\proj_extrinsic.xml"))) /\
  tables c' = tables c.
Proof.
  unfold load_procam_extrinsics, observe, stored_pair, flags, tables. cbn [fst snd].
  destruct (cam_intrinsic_calib c && proj_intrinsic_calib c);
    [destruct (cvLoad P w _); [destruct (cvLoad P w _) |] |];
    cbn; rewrite ?orb_true_r, ?orb_false_r; split; reflexivity.
Qed.

Lemma load_calibration_chain (p : slParams) (c : slCalib) (w : World P) :
  fst (fst (load_calibration P p c w)) =
  fst (fst (load_procam_extrinsics P p
    (fst (fst (load_proj_intrinsics P p
      (fst (fst (load_fundamental_matrix P p
        (fst (fst (load_cam_intrinsics P p c w))) w))) w))) w)).
Proof. reflexivity. Qed.

Lemma flags_eq (c : slCalib) (a b e : bool) :
  flags c = (a, b, e) ->
  cam_intrinsic_calib c = a /\ proj_intrinsic_calib c = b /\
  procam_extrinsic_calib c = e.
Proof. unfold flags. intro H. injection H. auto. Qed.

Lemma loaded_flags (p : slParams) (w : World P) :
  let dir := outdir p in
  let cam := stored_pair P w (dir ++ "\calib\cam\cam_intrinsic.xml")
                             (dir ++ "\calib\cam\cam_distortion.xml") in
  let proj := stored_pair P w (dir ++ "\calib\proj\proj_intrinsic.xml")
                              (dir ++ "\calib\proj\proj_distortion.xml") in
  let ext := stored_pair P w (dir ++ "\calib\proj\cam_extrinsic.xml")
                             (dir ++ "\calib\proj\proj_extrinsic.xml") in
  cam_intrinsic_calib (loaded P p w) = cam /\
  proj_intrinsic_calib (loaded P p w) = proj /\
  procam_extrinsic_calib (loaded P p w) = cam && proj && ext.
Proof.
  cbv zeta. unfold loaded. rewrite load_calibration_chain.
  set (c0 := allocate_calibration p).
  destruct (load_cam_intrinsics_fields p c0 w) as [H1 _].
  set (c1 := fst (fst (load_cam_intrinsics P p c0 w))) in *.
  destruct (load_fundamental_matrix_fields p c1 w) as [H2 _].
  set (c2 := fst (fst (load_fundamental_matrix P p c1 w))) in *.
  destruct (load_proj_intrinsics_fields p c2 w) as [H3 _].
  set (c3 := fst (fst (load_proj_intrinsics P p c2 w))) in *.
  destruct (load_procam_extrinsics_fields p c3 w) as [H4 _].
  set (c4 := fst (fst (load_procam_extrinsics P p c3 w))) in *.
  cbv zeta in H1, H2, H3, H4.
  apply flags_eq in H1 as (A1 & B1 & E1).
  assert (A2 : cam_intrinsic_calib c2 = cam_intrinsic_calib c1)
    by (unfold flags in H2; congruence).
  assert (B2 : proj_intrinsic_calib c2 = proj_intrinsic_calib c1)
    by (unfold flags in H2; congruence).
  assert (E2 : procam_extrinsic_calib c2 = procam_extrinsic_calib c1)
    by (unfold flags in H2; congruence).
  apply flags_eq in H3 as (A3 & B3 & E3).
  apply flags_eq in H4 as (A4 & B4 & E4).
  rewrite A4, B4, E4, A3, B3, E3, A2, B2, E2, A1, B1, E1.
  subst c0. cbn [allocate_calibration cam_intrinsic_calib proj_intrinsic_calib
                 procam_extrinsic_calib orb].
  repeat split.
Qed.

Lemma loaded_tables (p : slParams) (w : World P) :
  tables (loaded P p w) = tables (allocate_calibration p).
Proof.
  unfold loaded. rewrite load_calibration_chain.
  destruct (load_procam_extrinsics_fields p
    (fst (fst (load_proj_intrinsics P p
      (fst (fst (load_fundamental_matrix P p
        (fst (fst (load_cam_intrinsics P p (allocate_calibration p) w))) w))) w))) w)
    as [_ ->].
  destruct (load_proj_intrinsics_fields p
      (fst (fst (load_fundamental_matrix P p
        (fst (fst (load_cam_intrinsics P p (allocate_calibration p) w))) w))) w)
    as [_ ->].
  destruct (load_fundamental_matrix_fields p
        (fst (fst (load_cam_intrinsics P p (allocate_calibration p) w))) w)
    as [_ ->].
  destruct (load_cam_intrinsics_fields p (allocate_calibration p) w) as [_ ->].
  reflexivity.
Qed.

(** C1.  After start-up the projector-camera extrinsic flag is set only if
    both intrinsic flags are set: it is their conjunction with "both
    extrinsic files could be loaded", hence false whenever either intrinsic
    flag is false. *)
Theorem procam_extrinsic_only_with_intrinsics (id : Z) (argv : list string)
    (w w1 : World P) (s : Session) (ev : list Event) :
  startup P id argv w = (Val s, w1, ev) ->
  let c := sl_calib s in
  let dir := outdir (sl_params s) in
  (procam_extrinsic_calib c = true ->
   cam_intrinsic_calib c = true /\ proj_intrinsic_calib c = true) /\
  procam_extrinsic_calib c =
    cam_intrinsic_calib c && proj_intrinsic_calib c &&
    stored_pair P w1 (dir ++ "\calib\proj\cam_extrinsic.xml")
                     (dir ++ "\calib\proj\proj_extrinsic.xml").
Proof.
  intro H. apply startup_inv in H as (p & -> & _). cbn [sl_calib sl_params].
  destruct (init_background_flags p (loaded P p w1)) as (-> & -> & ->).
  destruct (loaded_flags p w1) as (Hc & Hp & He). cbv zeta in Hc, Hp, He.
  split.
  - rewrite He, Hc, Hp. intro Ht.
    apply andb_true_iff in Ht as [Ht _]. apply andb_true_iff in Ht. exact Ht.
  - rewrite He, Hc, Hp. reflexivity.
Qed.

(** ** Allocation *)

Lemma int_wrap_small (z : Z) : is_int z -> int_wrap z = z.
Proof.
  unfold is_int, int_wrap. intro H.
  rewrite Z.mod_small by lia. lia.
Qed.

(** C6.  [proj_rays] is allocated with one column per camera pixel,
    3 x (cam_w * cam_h), like [cam_rays], and not 3 x (proj_w * proj_h);
    [proj_column_planes] has [proj_w] rows and [proj_row_planes] has
    [proj_h] rows, of 4 coefficients each. *)
Theorem proj_rays_sized_by_camera (id : Z) (argv : list string)
    (w w1 : World P) (s : Session) (ev : list Event) :
  startup P id argv w = (Val s, w1, ev) ->
  is_int (cam_w (sl_params s) * cam_h (sl_params s)) ->
  let p := sl_params s in
  let c := sl_calib s in
  (rows (proj_rays c) = 3 /\ cols (proj_rays c) = cam_w p * cam_h p /\
   List.length (data (proj_rays c)) = Z.to_nat (3 * (cam_w p * cam_h p))) /\
  (rows (proj_rays c) = rows (cam_rays c) /\ cols (proj_rays c) = cols (cam_rays c)) /\
  (cam_w p * cam_h p <> proj_w p * proj_h p ->
   cols (proj_rays c) <> proj_w p * proj_h p) /\
  (rows (proj_column_planes c) = proj_w p /\ cols (proj_column_planes c) = 4) /\
  (rows (proj_row_planes c) = proj_h p /\ cols (proj_row_planes c) = 4).
Proof.
  intros H Hint. apply startup_inv in H as (p & -> & _).
  cbn [sl_calib sl_params] in *. cbv zeta.
  pose proof (loaded_tables p w1) as Ht. unfold tables in Ht.
  injection Ht as Hcr Hpr Hcp Hrp.
  change (proj_rays (init_background p (loaded P p w1)))
    with (proj_rays (loaded P p w1)).
  change (cam_rays (init_background p (loaded P p w1)))
    with (cam_rays (loaded P p w1)).
  change (proj_column_planes (init_background p (loaded P p w1)))
    with (proj_column_planes (loaded P p w1)).
  change (proj_row_planes (init_background p (loaded P p w1)))
    with (proj_row_planes (loaded P p w1)).
  rewrite Hcr, Hpr, Hcp, Hrp.
  unfold allocate_calibration.
  cbn [proj_rays cam_rays proj_column_planes proj_row_planes cvCreateMat rows cols data].
  unfold int_mul. rewrite (int_wrap_small _ Hint).
  repeat split; try reflexivity.
  - apply repeat_length.
  - intros Hne Heq. apply Hne. exact Heq.
Qed.

(** ** The background model *)

Lemma map_const_repeat {A B : Type} (v : B) (l : list A) :
  map (fun _ => v) l = repeat v (List.length l).
Proof. induction l as [| a l IH]; cbn; [reflexivity | rewrite IH; reflexivity]. Qed.

Lemma Forall_map_const {A B : Type} (v : B) (l : list A) :
  Forall (fun c => c = v) (map (fun _ => v) l).
Proof. induction l as [| a l IH]; cbn; constructor; auto. Qed.

Lemma clear_background_default (w h : Z) (c : slCalib) :
  background_shape w h c ->
  background (clear_background c) = default_background w h.
Proof.
  unfold background_shape, background, default_background, clear_background,
    set_background, cvSetMat, cvZeroImage, cvSetImage.
  cbn [background_depth_map background_image background_mask].
  intros ((Hr & Hc & Hl) & (Hw & Hh & Hn & Hli) & (Hmw & Hmh & Hmn & Hlm)).
  rewrite !map_const_repeat, Hr, Hc, Hl, Hw, Hh, Hn, Hli, Hmw, Hmh, Hmn, Hlm.
  reflexivity.
Qed.

Lemma created_background_shape (w h : Z) (c : slCalib) :
  background_shape w h
    (set_background c (cvCreateMat h w) (cvCreateImage w h 3) (cvCreateImage w h 1)).
Proof.
  unfold background_shape, set_background, cvCreateMat, cvCreateImage.
  cbn [background_depth_map background_image background_mask rows cols data
       width height nChannels imageData].
  rewrite !repeat_length. repeat split.
Qed.

Lemma clear_background_idem (c : slCalib) :
  clear_background (clear_background c) = clear_background c.
Proof.
  unfold clear_background, set_background, cvSetMat, cvZeroImage, cvSetImage.
  cbn. rewrite !map_map. reflexivity.
Qed.

(** C4.  At the start of the session the background model is in its
    default state: every entry of the depth map is FLT_MAX, the reference
    image is zero and every mask pixel is 255.  The reset command puts the
    current buffers back into exactly that state, and changes nothing else
    of the session but the repainted projector frame. *)
Theorem background_defaults (id : Z) (argv : list string)
    (w w1 : World P) (s : Session) (ev : list Event) :
  startup P id argv w = (Val s, w1, ev) ->
  let cw := cam_w (sl_params s) in
  let ch := cam_h (sl_params s) in
  background (sl_calib s) = default_background cw ch /\
  (forall (s' : Session) (w' : World P),
      exists s'',
        iteration P s' (char "r") w'
          = (Continue s'' NULL, w', [EvShowImage "projWindow" (proj_frame s'')]) /\
        sl_calib s'' = clear_background (sl_calib s') /\
        mat_all IEEE.FLT_MAX (background_depth_map (sl_calib s'')) /\
        image_all (repeat 0 (Z.to_nat (nChannels (background_image (sl_calib s'')))))
                  (background_image (sl_calib s'')) /\
        image_all (firstn (Z.to_nat (nChannels (background_mask (sl_calib s''))))
                          [255; 0; 0; 0])
                  (background_mask (sl_calib s'')) /\
        (background_shape cw ch (sl_calib s') ->
         background (sl_calib s'') = default_background cw ch)).
Proof.
  intro H. apply startup_inv in H as (p & -> & _).
  cbn [sl_calib sl_params]. cbv zeta. split.
  - unfold init_background. apply clear_background_default.
    apply created_background_shape.
  - intros s' w'.
    exists (mkSession (configFile s') (sl_params s') (clear_background (sl_calib s'))
                      (cvSetImage (proj_frame s') idle_colour) (scan_index s')).
    split; [reflexivity |]. cbn [sl_calib proj_frame].
    split; [reflexivity |].
    split; [| split; [| split]].
    + unfold mat_all, clear_background, set_background, cvSetMat.
      cbn [background_depth_map data]. apply Forall_map_const.
    + unfold image_all, clear_background, set_background, cvZeroImage.
      cbn [background_image imageData nChannels]. apply Forall_map_const.
    + unfold image_all, clear_background, set_background, cvSetImage.
      cbn [background_mask imageData nChannels].
      replace (firstn _ [255; 0; 0; 0])
        with (pixel_of_scalar (nChannels (background_mask (sl_calib s')))
                              (cvScalar1 (double_of_int 255))).
      * apply Forall_map_const.
      * unfold pixel_of_scalar.
        rewrite <- firstn_map. reflexivity.
    + apply clear_background_default.
Qed.

(** ** One pass of the command loop *)

Local Arguments cvSetImage : simpl never.
Local Arguments clear_background : simpl never.
Local Arguments char : simpl never.
Local Arguments int_succ : simpl never.

Lemma iteration_pass (s : Session) (k : Z) (w : World P) :
  let r := iteration P s k w in
  let st := fst (fst r) in
  let ev := snd r in
  shown ev = [cvSetImage (proj_frame s) idle_colour] /\
  proj_frame (step_session st) = cvSetImage (proj_frame s) idle_colour /\
  configFile (step_session st) = configFile s /\
  config_reads ev = [] /\
  (k = ESC -> is_break st = true /\ config_writes ev = [configFile s] /\
              engine_calls ev = []) /\
  (k <> ESC -> is_break st = false /\ config_writes ev = []).
Proof.
  cbv zeta. unfold ESC.
  unfold iteration, engine, bind, call, emit, ret. cbn.
  destruct (Z.eqb_spec k 27) as [-> | Hk].
  { destruct (writeConfiguration P w (configFile s) (sl_params s)) as [ww pw].
    destruct (Logitech_9000 pw); cbn; repeat split; intros; congruence. }
  destruct (Z.eqb_spec k (char "s")) as [-> | Hs].
  { destruct (runStructuredLight P w _ _ _) as [[? ?] ?].
    cbn. repeat split; intros; try contradiction; reflexivity. }
  destruct (Z.eqb_spec k (char "b")) as [-> | Hb].
  { destruct (runBackgroundCapture P w _ _) as [[? ?] ?].
    cbn. repeat split; intros; try contradiction; reflexivity. }
  destruct (Z.eqb_spec k (char "r")) as [-> | Hr].
  { cbn. repeat split; intros; try contradiction; reflexivity. }
  destruct (Z.eqb_spec k (char "c")) as [-> | Hc].
  { destruct (runCameraCalibration P w _ _) as [[? ?] ?].
    cbn. repeat split; intros; try contradiction; reflexivity. }
  destruct (Z.eqb_spec k (char "p")) as [-> | Hp].
  { destruct (runProjectorCalibration P w _ _ _) as [[? ?] ?].
    cbn. repeat split; intros; try contradiction; reflexivity. }
  destruct (Z.eqb_spec k (char "a")) as [-> | Ha].
  { destruct (runProjectorCalibration P w _ _ _) as [[? ?] ?].
    cbn. repeat split; intros; try contradiction; reflexivity. }
  destruct (Z.eqb_spec k (char "e")) as [-> | He].
  { destruct (runProCamExtrinsicCalibration P w _ _) as [[? ?] ?].
    cbn. repeat split; intros; try contradiction; reflexivity. }
  cbn. repeat split; intros; try contradiction; reflexivity.
Qed.


(** ** The loop as a whole *)

Lemma command_loop_eq (keys : list Z) (s : Session) (k : Z) (w : World P)
    (done : list Event) :
  command_loop P keys s k w done =
  let '(step, w1, ev) := iteration P s k w in
  match step with
  | Break _ =>
      let '(w2, retVal) := camera_EndCapture P w1 in
      mkRun P (Exited 0) (done ++ ev ++ [EvEndCapture])%list w2
  | Continue s1 cvKey1 =>
      match keys with
      | [] => mkRun P Waiting (done ++ ev)%list w1
      | k1 :: keys1 => command_loop P keys1 s1 k1 w1 (done ++ ev)%list
      end
  end.
Proof. destruct keys; reflexivity. Qed.

Lemma config_writes_app (a b : list Event) :
  config_writes (a ++ b) = (config_writes a ++ config_writes b)%list.
Proof. apply flat_map_app. Qed.

Lemma config_reads_app (a b : list Event) :
  config_reads (a ++ b) = (config_reads a ++ config_reads b)%list.
Proof. apply flat_map_app. Qed.

Lemma shown_app (a b : list Event) : shown (a ++ b) = (shown a ++ shown b)%list.
Proof. apply flat_map_app. Qed.

(** The loop ends, with exit code 0, exactly when the escape key comes; it
    then has written the configuration once, to the session's file. *)
Lemma command_loop_escape (keys : list Z) :
  forall (s : Session) (k : Z) (w : World P) (done : list Event),
    let r := command_loop P keys s k w done in
    outcome r = (if escape_pressed k keys then Exited 0 else Waiting) /\
    config_writes (trace r) =
      (config_writes done ++ if escape_pressed k keys then [configFile s] else [])%list /\
    config_reads (trace r) = config_reads done.
Proof.
  induction keys as [| k1 keys IH]; intros s k w done r; subst r;
    rewrite command_loop_eq;
    pose proof (iteration_pass s k w) as Hp; cbv zeta in Hp;
    destruct (iteration P s k w) as [[st w1] ev]; cbn [fst snd] in Hp;
    destruct Hp as (_ & _ & Hcf & Hrd & Hesc & Hoth);
    unfold escape_pressed;
    destruct (Z.eqb_spec k ESC) as [Hk | Hk].
  - destruct (Hesc Hk) as (Hb & Hw & _).
    destruct st as [s1 | s1 k']; [| discriminate Hb].
    destruct (camera_EndCapture P w1) as [w2 rv]. cbn [outcome trace orb].
    rewrite !config_writes_app, !config_reads_app, Hw, Hrd. cbn.
    rewrite !app_nil_r. auto.
  - destruct (Hoth Hk) as (Hb & Hw).
    destruct st as [s1 | s1 k']; [discriminate Hb |].
    cbn [outcome trace orb existsb].
    rewrite config_writes_app, config_reads_app, Hw, Hrd, !app_nil_r. auto.
  - destruct (Hesc Hk) as (Hb & Hw & _).
    destruct st as [s1 | s1 k']; [| discriminate Hb].
    destruct (camera_EndCapture P w1) as [w2 rv]. cbn [outcome trace orb].
    rewrite !config_writes_app, !config_reads_app, Hw, Hrd. cbn.
    rewrite !app_nil_r. auto.
  - destruct (Hoth Hk) as (Hb & Hw).
    destruct st as [s1 | s1 k']; [discriminate Hb |].
    cbn [step_session] in Hcf.
    destruct (IH s1 k1 w1 (done ++ ev)%list) as (Ho & Hcw & Hcr).
    rewrite Ho, Hcw, Hcr, Hcf, config_writes_app, config_reads_app, Hw, Hrd,
      !app_nil_r.
    cbn [orb existsb]. unfold escape_pressed.
    rewrite (Z.eqb_sym ESC k1). auto.
Qed.

Lemma cvSetImage_again (img : IplImage) (c : CvScalar) :
  cvSetImage (cvSetImage img c) c = cvSetImage img c.
Proof. unfold cvSetImage. cbn. rewrite map_map. reflexivity. Qed.

(** Every pass shows the same idle frame. *)
Lemma command_loop_frames (p : slParams) (keys : list Z) :
  forall (s : Session) (k : Z) (w : World P) (done : list Event),
    cvSetImage (proj_frame s) idle_colour = idle_frame p ->
    exists n,
      shown (trace (command_loop P keys s k w done))
      = (shown done ++ repeat (idle_frame p) (S n))%list.
Proof.
  induction keys as [| k1 keys IH]; intros s k w done Hfr;
    rewrite command_loop_eq;
    pose proof (iteration_pass s k w) as Hp; cbv zeta in Hp;
    destruct (iteration P s k w) as [[st w1] ev]; cbn [fst snd] in Hp;
    destruct Hp as (Hsh & Hpf & _); rewrite Hfr in Hsh, Hpf;
    destruct st as [s1 | s1 k'].
  - destruct (camera_EndCapture P w1) as [w2 rv]. cbn [trace].
    exists 0%nat. rewrite !shown_app, Hsh. cbn. reflexivity.
  - exists 0%nat. cbn [trace]. rewrite shown_app, Hsh. reflexivity.
  - destruct (camera_EndCapture P w1) as [w2 rv]. cbn [trace].
    exists 0%nat. rewrite !shown_app, Hsh. cbn. reflexivity.
  - cbn [step_session] in Hpf.
    destruct (IH s1 k1 w1 (done ++ ev)%list) as [n Hn].
    { rewrite Hpf. unfold idle_frame. apply cvSetImage_again. }
    exists (S n). rewrite Hn, shown_app, Hsh, <- app_assoc. reflexivity.
Qed.

(** ** Start-up writes no configuration *)

Lemma quiet_ret {A : Type} (a : A) : quiet (ret P a).
Proof. intro w. reflexivity. Qed.

Lemma quiet_observe {A : Type} (f : World P -> A) : quiet (observe P f).
Proof. intro w. reflexivity. Qed.

Lemma quiet_call {A : Type} (e : Event) (f : World P -> World P * A) :
  config_writes [e] = [] -> quiet (call P e f).
Proof. intros He w. unfold call. destruct (f w). exact He. Qed.

Lemma quiet_emit (e : Event) : config_writes [e] = [] -> quiet (emit P e).
Proof. intros He w. exact He. Qed.

Lemma quiet_bind {A B : Type} (m : Act P A) (k : A -> Act P B) :
  quiet m -> (forall a, quiet (k a)) -> quiet (bind P m k).
Proof.
  intros Hm Hk w. unfold bind. specialize (Hm w).
  destruct (m w) as [[a wa] ea]. specialize (Hk a wa).
  destruct (k a wa) as [[b wb] eb]. cbn [snd] in *.
  rewrite config_writes_app, Hm, Hk. reflexivity.
Qed.

Lemma quiet_ok {A : Type} (m : Act P A) : quiet m -> quiet (ok P m).
Proof. intro H. apply quiet_bind; [exact H | intro; apply quiet_ret]. Qed.

Lemma quiet_bindP {A B : Type} (m : Proc P A) (k : A -> Proc P B) :
  quiet m -> (forall a, quiet (k a)) -> quiet (bindP P m k).
Proof.
  intros Hm Hk. apply quiet_bind; [exact Hm |].
  intros [a | st]; [apply Hk | apply quiet_ret].
Qed.

Ltac quiet_steps :=
  repeat first
    [ apply quiet_ret | apply quiet_observe
    | apply quiet_call; reflexivity | apply quiet_emit; reflexivity
    | apply quiet_ok | apply quiet_bindP | apply quiet_bind
    | match goal with
      | |- forall _, quiet _ => intro
      | |- quiet (if ?b then _ else _) => destruct b
      | |- quiet (match ?x with _ => _ end) => destruct x
      | |- quiet (let '(_, _) := ?x in _) => destruct x
      end ].

Lemma startup_quiet (id : Z) (argv : list string) : quiet (startup P id argv).
Proof.
  unfold startup, create_camera, read_config, start_camera, open_projector_window,
    create_output_directory, load_calibration, load_cam_intrinsics,
    load_fundamental_matrix, load_proj_intrinsics, load_procam_extrinsics, halt.
  quiet_steps.
Qed.

(** ** Properties of the command loop *)

Lemma main_started (id : Z) (argv : list string) (keys : list Z) (w w1 : World P)
    (s : Session) (ev : list Event) :
  startup P id argv w = (Val s, w1, ev) ->
  main P id argv keys w = command_loop P keys s NULL w1 ev.
Proof. unfold main. intros ->. reflexivity. Qed.

Lemma main_halted (id : Z) (argv : list string) (keys : list Z) (w w1 : World P)
    (st : Stop) (ev : list Event) :
  startup P id argv w = (Halt st, w1, ev) ->
  main P id argv keys w = mkRun P (leave keys st) ev w1.
Proof. unfold main. intros ->. reflexivity. Qed.

(** The reset the loop body performs (lines 267-269 and 275-277) puts the
    background model in the default state. *)
Lemma clear_background_resets (c : slCalib) :
  clear_background c = with_default_background c.
Proof.
  unfold clear_background, with_default_background, cvSetMat, cvZeroImage, cvSetImage.
  cbv zeta. rewrite !map_const_repeat.
  replace (pixel_of_scalar (nChannels (background_mask c)) (cvScalar1 (double_of_int 255)))
    with (firstn (Z.to_nat (nChannels (background_mask c))) [255; 0; 0; 0])
    by (unfold pixel_of_scalar; rewrite <- firstn_map; reflexivity).
  reflexivity.
Qed.

(** On buffers with the dimensions of a [w] x [h] camera that state is the
    default background of the session start. *)
Lemma with_default_background_default (w h : Z) (c : slCalib) :
  background_shape w h c ->
  background (with_default_background c) = default_background w h.
Proof.
  unfold background_shape, background, default_background, with_default_background,
    set_background.
  cbn [background_depth_map background_image background_mask].
  intros ((Hr & Hc & Hl) & (Hw & Hh & Hn & Hli) & (Hmw & Hmh & Hmn & Hlm)).
  rewrite Hr, Hc, Hl, Hw, Hh, Hn, Hli, Hmw, Hmh, Hmn, Hlm.
  reflexivity.
Qed.

(** A pass either breaks out of the loop or takes the loop to [_getch()]. *)
Lemma command_loop_at_getch (keys : list Z) (s : Session) (k : Z) (w : World P)
    (done : list Event) :
  command_loop P keys s k w done =
  let '(step, w1, ev) := iteration P s k w in
  match step with
  | Break _ =>
      let '(w2, retVal) := camera_EndCapture P w1 in
      mkRun P (Exited 0) (done ++ ev ++ [EvEndCapture])%list w2
  | Continue s1 _ => at_getch keys s1 w1 (done ++ ev)%list
  end.
Proof. destruct keys; reflexivity. Qed.

Ltac engine_pass r :=
  unfold at_getch at 1; rewrite command_loop_at_getch;
  unfold iteration, engine, bind, call, emit, ret, char; cbn;
  destruct r as [[? ?] ?]; reflexivity.

(** C3.  The command loop waits in [_getch()] with session [s], in world
    [w], after the calls [done]; the key [k] is pressed, and the keys [rest]
    after it.  For each of the seven letters the run is the one where the
    loop is back in [_getch()] for [rest] after showing the idle frame and
    making exactly the one call named, in the world and with the parameters
    and calibration that call left: S (character 's') runs the scanner on
    the next scan index, which becomes the session's; B captures the
    background, from a background model put in its default state; R puts
    the background model in its default state, calls no engine and leaves
    the world as it is (the session its pass leaves is given as well); C
    runs the camera calibration; P the projector calibration with the
    simultaneous flag off; A the projector calibration with the flag on; E
    the extrinsic calibration.  For ESC the run writes the configuration,
    stops the camera and ends with exit code 0, whatever [rest] is.  The
    loop of [main] is reached this way: after a start-up that succeeds,
    [main] shows the idle frame once and waits in [_getch()] for the
    keys. *)
Theorem key_dispatch (s : Session) (w : World P) (done : list Event) (rest : list Z) :
  let frame := cvSetImage (proj_frame s) idle_colour in
  let idle := EvShowImage "projWindow" frame in
  let pressed (k : Z) : Run P := at_getch (k :: rest) s w done in
  let back (idx : Z) (e : list Event) (r : World P * slParams * slCalib) : Run P :=
    let '(w1, p1, c1) := r in
    at_getch rest (mkSession (configFile s) p1 c1 frame idx) w1 (done ++ idle :: e)%list in
  let next := int_succ (scan_index s) in
  pressed (char "s")
    = back next [EvRunStructuredLight next]
        (runStructuredLight P w (sl_params s) (sl_calib s) next) /\
  pressed (char "b")
    = back (scan_index s) [EvRunBackgroundCapture]
        (runBackgroundCapture P w (sl_params s) (with_default_background (sl_calib s))) /\
  pressed (char "r")
    = back (scan_index s) [] (w, sl_params s, with_default_background (sl_calib s)) /\
  step_session (fst (fst (iteration P s (char "r") w)))
    = mkSession (configFile s) (sl_params s) (with_default_background (sl_calib s))
                frame (scan_index s) /\
  pressed (char "c")
    = back (scan_index s) [EvRunCameraCalibration]
        (runCameraCalibration P w (sl_params s) (sl_calib s)) /\
  pressed (char "p")
    = back (scan_index s) [EvRunProjectorCalibration false]
        (runProjectorCalibration P w (sl_params s) (sl_calib s) false) /\
  pressed (char "a")
    = back (scan_index s) [EvRunProjectorCalibration true]
        (runProjectorCalibration P w (sl_params s) (sl_calib s) true) /\
  pressed (char "e")
    = back (scan_index s) [EvRunProCamExtrinsicCalibration]
        (runProCamExtrinsicCalibration P w (sl_params s) (sl_calib s)) /\
  pressed ESC
    = (let '(w1, p1) := writeConfiguration P w (configFile s) (sl_params s) in
       let bayer := "Bayer.exe 0 > nul" in
       let w2 := if Logitech_9000 p1 then system P w1 bayer else w1 in
       let '(w3, _) := camera_EndCapture P w2 in
       mkRun P (Exited 0)
             (done ++ [idle; EvWriteConfiguration (configFile s) (sl_params s)]
                   ++ (if Logitech_9000 p1 then [EvSystem bayer] else [])
                   ++ [EvEndCapture])%list
             w3) /\
  (forall id argv keys w0 w1 s0 ev0,
      startup P id argv w0 = (Val s0, w1, ev0) ->
      main P id argv keys w0
      = at_getch keys (repainted s0) w1
          (ev0 ++ [EvShowImage "projWindow" (proj_frame (repainted s0))])%list).
Proof.
  cbv zeta.
  repeat match goal with |- _ /\ _ => split end.
  - engine_pass (runStructuredLight P w (sl_params s) (sl_calib s)
                   (int_succ (scan_index s))).
  - rewrite <- clear_background_resets.
    engine_pass (runBackgroundCapture P w (sl_params s) (clear_background (sl_calib s))).
  - rewrite <- clear_background_resets.
    unfold at_getch at 1. rewrite command_loop_at_getch. reflexivity.
  - rewrite <- clear_background_resets. reflexivity.
  - engine_pass (runCameraCalibration P w (sl_params s) (sl_calib s)).
  - engine_pass (runProjectorCalibration P w (sl_params s) (sl_calib s) false).
  - engine_pass (runProjectorCalibration P w (sl_params s) (sl_calib s) true).
  - engine_pass (runProCamExtrinsicCalibration P w (sl_params s) (sl_calib s)).
  - unfold at_getch at 1. rewrite command_loop_at_getch.
    unfold iteration, bind, call, emit, ret, ESC; cbn.
    destruct (writeConfiguration P w (configFile s) (sl_params s)) as [w1 p1].
    destruct (Logitech_9000 p1); cbn;
      destruct (camera_EndCapture P _) as [w3 rv]; reflexivity.
  - intros id argv keys w0 w1 s0 ev0 Hst.
    rewrite (main_started _ _ keys _ _ _ _ Hst).
    rewrite command_loop_at_getch. reflexivity.
Qed.

(** A key with no branch of its own does nothing but stay in [cvKey]. *)
Lemma unbound_key_ignored (s : Session) (k : Z) (w : World P) :
  ~ In k [ESC; char "s"; char "b"; char "r"; char "c"; char "p"; char "a"; char "e"] ->
  iteration P s k w
  = (Continue (repainted s) k, w,
     [EvShowImage "projWindow" (cvSetImage (proj_frame s) idle_colour)]).
Proof.
  intro Hk. unfold iteration, engine, bind, call, emit, ret, repainted. cbn.
  repeat match goal with
         | |- context [if k =? ?c then _ else _] =>
             destruct (Z.eqb_spec k c) as [He | _];
             [exfalso; apply Hk; rewrite He; unfold ESC; cbn; tauto |]
         end.
  reflexivity.
Qed.


(** ** The projector frames *)

Lemma splash_frame_blue (p : slParams) : image_all blue (splash_frame p).
Proof. unfold image_all, splash_frame, cvSetImage. cbn [imageData]. apply Forall_map_const. Qed.

Lemma idle_frame_white (p : slParams) : image_all white (idle_frame p).
Proof.
  unfold image_all, idle_frame, cvSetImage.
  cbn [imageData nChannels splash_frame cvCreateImage].
  apply Forall_map_const.
Qed.

Lemma frames_differ (p : slParams) :
  0 < proj_w p * proj_h p -> splash_frame p <> idle_frame p.
Proof.
  intros Hpos Heq. apply (f_equal imageData) in Heq.
  unfold idle_frame, splash_frame, cvSetImage, cvCreateImage in Heq.
  cbn [imageData nChannels] in Heq. rewrite map_map in Heq.
  destruct (Z.to_nat (proj_w p * proj_h p)) eqn:Hn; [lia |].
  cbn [repeat map] in Heq. discriminate Heq.
Qed.

(** C7.  The frame shown at start-up is filled with (255, 0, 0), blue in
    BGR order; the frame shown at the top of every pass of the command
    loop is filled with (255, 255, 255), white.  A run that reaches the
    loop shows the blue frame once and then only white frames. *)
Theorem splash_blue_idle_white (id : Z) (argv : list string) (keys : list Z)
    (w w1 : World P) (s : Session) (ev : list Event) :
  startup P id argv w = (Val s, w1, ev) ->
  let p := sl_params s in
  (exists n, shown (trace (main P id argv keys w))
             = splash_frame p :: repeat (idle_frame p) (S n)) /\
  (width (splash_frame p) = proj_w p /\ height (splash_frame p) = proj_h p /\
   image_all blue (splash_frame p)) /\
  (forall s' k w', shown (snd (iteration P s' k w'))
                   = [cvSetImage (proj_frame s') idle_colour]) /\
  image_all white (idle_frame p) /\
  (pixel_of_scalar 3 splash_colour = blue /\
   pixel_of_scalar 3 idle_colour = white /\ blue <> white) /\
  (0 < proj_w p * proj_h p -> splash_frame p <> idle_frame p).
Proof.
  intro Hst. rewrite (main_started _ _ keys _ _ _ _ Hst).
  apply startup_inv in Hst as (p & -> & ->). cbn [sl_params]. cbv zeta.
  split; [| split; [| split; [| split; [| split]]]].
  - destruct (command_loop_frames p keys
                (mkSession (select_config argv) p (init_background p (loaded P p w1))
                           (splash_frame p) 0)
                NULL w1 (startup_events (select_config argv) p) eq_refl) as [n Hn].
    exists n. rewrite Hn. reflexivity.
  - repeat split. apply splash_frame_blue.
  - intros s' k w'. apply (iteration_pass s' k w').
  - apply idle_frame_white.
  - repeat split. discriminate.
  - apply frames_differ.
Qed.

(** ** Exit codes *)

Lemma bindP_Halt {A B : Type} (m : Proc P A) (k : A -> Proc P B)
    (w w2 : World P) (st : Stop) (e : list Event) :
  bindP P m k w = (Halt st, w2, e) ->
  m w = (Halt st, w2, e) \/
  exists a wa ea eb, m w = (Val a, wa, ea) /\ k a wa = (Halt st, w2, eb).
Proof.
  unfold bindP, bind. destruct (m w) as [[r wa] ea]. destruct r as [a | st'].
  - destruct (k a wa) as [[rb wb] eb] eqn:Hk. intro H.
    apply triple_eq in H as (-> & -> & _).
    right. exists a, wa, ea, eb. auto.
  - unfold ret. rewrite app_nil_r. intro H. left.
    apply triple_eq in H as (H & -> & ->). injection H as ->. reflexivity.
Qed.

Lemma bindP_halts {A B : Type} (m : Proc P A) (k : A -> Proc P B)
    (w w1 : World P) (st : Stop) (e : list Event) :
  m w = (Halt st, w1, e) -> bindP P m k w = (Halt st, w1, e).
Proof.
  intro H. unfold bindP, bind. rewrite H. unfold ret. rewrite app_nil_r. reflexivity.
Qed.

Lemma ok_not_Halt {A : Type} (m : Act P A) (w w1 : World P) (st : Stop)
    (e : list Event) :
  ok P m w <> (Halt st, w1, e).
Proof.
  intro H. apply ok_inv in H as (a & _ & Ha). discriminate Ha.
Qed.

Lemma create_camera_Halt (id : Z) (w w1 : World P) (st : Stop) (e : list Event) :
  create_camera P id w = (Halt st, w1, e) ->
  st = Return 0 /\ id <> 0 /\ id <> 1 /\ id <> 2 /\
  (GetKinectCount P w < 1 \/ GetKinect P w = false).
Proof.
  unfold create_camera, bindP, ok, halt, bind, ret, observe. intro H.
  destruct (Z.eqb_spec id 0); [discriminate H |].
  destruct (Z.eqb_spec id 1); [discriminate H |].
  destruct (Z.eqb_spec id 2); [discriminate H |].
  cbn in H.
  destruct (Z.ltb_spec (GetKinectCount P w) 1); cbn in H.
  - apply triple_eq in H as (H & _ & _). injection H as <-.
    repeat split; auto.
  - destruct (GetKinect P w) eqn:Hk; cbn in H; [discriminate H |].
    apply triple_eq in H as (H & _ & _). injection H as <-.
    repeat split; auto.
Qed.

Lemma read_config_Halt (f : string) (w w1 : World P) (st : Stop) (e : list Event) :
  read_config P f w = (Halt st, w1, e) ->
  st = GetchReturn (-1) /\ fopen_r P w f = false.
Proof.
  unfold read_config, bindP, ok, halt, bind, ret, observe, call. intro H. cbn in H.
  destruct (fopen_r P w f); cbn in H.
  - destruct (readConfiguration P w f). discriminate H.
  - apply triple_eq in H as (H & _ & _). injection H as <-. auto.
Qed.

Lemma start_camera_Halt (p : slParams) (w w1 : World P) (st : Stop) (e : list Event) :
  start_camera P p w = (Halt st, w1, e) ->
  st = Return (-1) \/ st = GetchReturn (-1).
Proof.
  unfold start_camera, bindP, ok, halt, bind, ret, observe, call. intro H. cbn in H.
  destruct (camera_Init P w p) as [[wi pi] ri]. cbn in H.
  destruct (ri =? 0); cbn in H.
  2: { apply triple_eq in H as (H & _ & _). injection H as <-. auto. }
  destruct (camera_StartCapture P wi) as [ws rs]. cbn in H.
  destruct (rs =? 0); cbn in H.
  2: { apply triple_eq in H as (H & _ & _). injection H as <-. auto. }
  destruct (camera_QueryFrame P ws) as [wq fq]. cbn in H.
  destruct fq; cbn in H; [discriminate H |].
  apply triple_eq in H as (H & _ & _). injection H as <-. auto.
Qed.

Lemma create_output_directory_Halt (p : slParams) (w w1 : World P) (st : Stop)
    (e : list Event) :
  create_output_directory P p w = (Halt st, w1, e) -> st = GetchReturn (-1).
Proof.
  unfold create_output_directory, bindP, ok, halt, bind, ret, observe, call.
  intro H. cbn in H.
  destruct (_mkdir P w (outdir p)) as [wa ra]. cbn in H.
  destruct (_mkdir P wa _) as [wb rb]. cbn in H.
  destruct (_mkdir P (system P wb _) _) as [wc rc]. cbn in H.
  destruct (rc =? 0); cbn in H; [discriminate H |].
  apply triple_eq in H as (H & _ & _). injection H as <-. reflexivity.
Qed.

(** The ways start-up leaves [main]: with 0 when the Kinect back end finds
    or opens no device, with -1 in every other case. *)
Lemma startup_Halt (id : Z) (argv : list string) (w w1 : World P) (st : Stop)
    (ev : list Event) :
  startup P id argv w = (Halt st, w1, ev) ->
  (st = Return 0 /\ id <> 0 /\ id <> 1 /\ id <> 2 /\
   (GetKinectCount P w < 1 \/ GetKinect P w = false)) \/
  st = Return (-1) \/ st = GetchReturn (-1).
Proof.
  unfold startup. intro H.
  apply bindP_Halt in H as [H | (u & wa & ea & eb & _ & H)].
  { left. apply create_camera_Halt in H. exact H. }
  right.
  apply bindP_Halt in H as [H | (p0 & wb & eb1 & eb2 & _ & H)].
  { apply read_config_Halt in H as [-> _]. auto. }
  apply bindP_Halt in H as [H | (p & wc & ec1 & ec2 & _ & H)].
  { apply start_camera_Halt in H. exact H. }
  apply bindP_Halt in H as [H | (fr & wd & ed1 & ed2 & _ & H)].
  { exfalso. exact (ok_not_Halt _ _ _ _ _ H). }
  apply bindP_Halt in H as [H | (u2 & we & ee1 & ee2 & _ & H)].
  { apply create_output_directory_Halt in H as ->. auto. }
  apply bindP_Halt in H as [H | (c & wf & ef1 & ef2 & _ & H)].
  { exfalso. exact (ok_not_Halt _ _ _ _ _ H). }
  exfalso. exact (ok_not_Halt _ _ _ _ _ H).
Qed.

(** Every exit code of [main]: 0 after the escape key, 0 again when the
    Kinect back end has no device, -1 for the other start-up failures. *)
Lemma exit_codes (id : Z) (argv : list string) (keys : list Z) (w : World P)
    (code : Z) :
  outcome (main P id argv keys w) = Exited code ->
  (code = 0 /\ existsb (Z.eqb ESC) keys = true /\
   exists s w1 ev, startup P id argv w = (Val s, w1, ev)) \/
  (code = 0 /\ id <> 0 /\ id <> 1 /\ id <> 2 /\
   (GetKinectCount P w < 1 \/ GetKinect P w = false)) \/
  code = -1.
Proof.
  destruct (startup P id argv w) as [[[s | st] w1] ev] eqn:Hst.
  - rewrite (main_started _ _ keys _ _ _ _ Hst).
    destruct (command_loop_escape keys s NULL w1 ev) as (Ho & _). rewrite Ho.
    unfold escape_pressed. change (NULL =? ESC) with false. cbn [orb].
    destruct (existsb (Z.eqb ESC) keys); [| discriminate].
    intro H. injection H as <-. left. repeat split. eauto.
  - rewrite (main_halted _ _ keys _ _ _ _ Hst). cbn [outcome].
    apply startup_Halt in Hst as [(-> & Hk) | [-> | ->]]; cbn [leave].
    + intro H. injection H as <-. right. left. tauto.
    + intro H. injection H as <-. auto.
    + destruct keys; [discriminate |]. intro H. injection H as <-. auto.
Qed.

(** The Kinect back end without a device: [main] returns 0. *)
Lemma kinect_failure_exits_zero (id : Z) (argv : list string) (keys : list Z)
    (w : World P) :
  id <> 0 -> id <> 1 -> id <> 2 ->
  GetKinectCount P w < 1 \/ GetKinect P w = false ->
  outcome (main P id argv keys w) = Exited 0.
Proof.
  intros H0 H1 H2 Hk.
  assert (Hst : startup P id argv w = (Halt (Return 0), w, [])).
  { unfold startup. apply bindP_halts.
    unfold create_camera, bindP, ok, halt, bind, ret, observe.
    destruct (Z.eqb_spec id 0); [contradiction |].
    destruct (Z.eqb_spec id 1); [contradiction |].
    destruct (Z.eqb_spec id 2); [contradiction |].
    cbn.
    destruct (Z.ltb_spec (GetKinectCount P w) 1); cbn; [reflexivity |].
    destruct Hk as [Hk | Hk]; [lia |]. rewrite Hk. reflexivity. }
  rewrite (main_halted _ _ keys _ _ _ _ Hst). reflexivity.
Qed.

End ScannerFacts.

(* ================================================================= *)
(** * The properties on a concrete rig                                 *)
(* ================================================================= *)

Import OpenCV Scanner Observe.

Local Open Scope string_scope.
Local Open Scope Z_scope.

Lemma calibrated_rig_starts :
  startup (Bench.platform Bench.calibrated) 0 Bench.argv tt
  = (Val (Bench.session 0 Bench.calibrated), tt, Bench.calls 0 Bench.calibrated).
Proof. vm_compute. reflexivity. Qed.

Lemma procam_extrinsic_only_with_intrinsics_witness :
  startup (Bench.platform Bench.calibrated) 0 Bench.argv tt
  = (Val (Bench.session 0 Bench.calibrated), tt, Bench.calls 0 Bench.calibrated) /\
  flags (sl_calib (Bench.session 0 Bench.calibrated)) = (true, true, true) /\
  let c := sl_calib (Bench.session 0 Bench.calibrated) in
  let dir := outdir (sl_params (Bench.session 0 Bench.calibrated)) in
  (procam_extrinsic_calib c = true ->
   cam_intrinsic_calib c = true /\ proj_intrinsic_calib c = true) /\
  procam_extrinsic_calib c =
    cam_intrinsic_calib c && proj_intrinsic_calib c &&
    stored_pair (Bench.platform Bench.calibrated) tt
                (dir ++ "\calib\proj\cam_extrinsic.xml")
                (dir ++ "\calib\proj\proj_extrinsic.xml").
Proof.
  split; [exact calibrated_rig_starts |].
  split; [vm_compute; reflexivity |].
  exact (procam_extrinsic_only_with_intrinsics
           (Bench.platform Bench.calibrated) 0 Bench.argv tt tt
           (Bench.session 0 Bench.calibrated) (Bench.calls 0 Bench.calibrated)
           calibrated_rig_starts).
Defined.

(** With only the extrinsic files stored, the extrinsic flag stays false. *)
Lemma extrinsic_files_alone_do_not_set_the_flag :
  flags (sl_calib (Bench.session 0 Bench.extrinsics_only)) = (false, false, false).
Proof. vm_compute. reflexivity. Qed.

Lemma bench_product_is_int :
  is_int (cam_w (sl_params (Bench.session 0 Bench.calibrated))
          * cam_h (sl_params (Bench.session 0 Bench.calibrated))).
Proof. vm_compute. split; [discriminate | reflexivity]. Qed.

Lemma proj_rays_sized_by_camera_witness :
  (cols (proj_rays (sl_calib (Bench.session 0 Bench.calibrated))) = 12 /\
   proj_w Bench.params * proj_h Bench.params = 4) /\
  let p := sl_params (Bench.session 0 Bench.calibrated) in
  let c := sl_calib (Bench.session 0 Bench.calibrated) in
  (rows (proj_rays c) = 3 /\ cols (proj_rays c) = cam_w p * cam_h p /\
   List.length (data (proj_rays c)) = Z.to_nat (3 * (cam_w p * cam_h p))) /\
  (rows (proj_rays c) = rows (cam_rays c) /\ cols (proj_rays c) = cols (cam_rays c)) /\
  (cam_w p * cam_h p <> proj_w p * proj_h p ->
   cols (proj_rays c) <> proj_w p * proj_h p) /\
  (rows (proj_column_planes c) = proj_w p /\ cols (proj_column_planes c) = 4) /\
  (rows (proj_row_planes c) = proj_h p /\ cols (proj_row_planes c) = 4).
Proof.
  split; [vm_compute; split; reflexivity |].
  exact (proj_rays_sized_by_camera
           (Bench.platform Bench.calibrated) 0 Bench.argv tt tt
           (Bench.session 0 Bench.calibrated) (Bench.calls 0 Bench.calibrated)
           calibrated_rig_starts bench_product_is_int).
Defined.

Lemma background_defaults_witness :
  startup (Bench.platform Bench.calibrated) 0 Bench.argv tt
  = (Val (Bench.session 0 Bench.calibrated), tt, Bench.calls 0 Bench.calibrated) /\
  let P := Bench.platform Bench.calibrated in
  let s := Bench.session 0 Bench.calibrated in
  let cw := cam_w (sl_params s) in
  let ch := cam_h (sl_params s) in
  background (sl_calib s) = default_background cw ch /\
  (forall (s' : Session) (w' : World P),
      exists s'',
        iteration P s' (char "r") w'
          = (Continue s'' NULL, w', [EvShowImage "projWindow" (proj_frame s'')]) /\
        sl_calib s'' = clear_background (sl_calib s') /\
        mat_all IEEE.FLT_MAX (background_depth_map (sl_calib s'')) /\
        image_all (repeat 0 (Z.to_nat (nChannels (background_image (sl_calib s'')))))
                  (background_image (sl_calib s'')) /\
        image_all (firstn (Z.to_nat (nChannels (background_mask (sl_calib s''))))
                          [255; 0; 0; 0])
                  (background_mask (sl_calib s'')) /\
        (background_shape cw ch (sl_calib s') ->
         background (sl_calib s'') = default_background cw ch)).
Proof.
  split; [exact calibrated_rig_starts |].
  exact (background_defaults
           (Bench.platform Bench.calibrated) 0 Bench.argv tt tt
           (Bench.session 0 Bench.calibrated) (Bench.calls 0 Bench.calibrated)
           calibrated_rig_starts).
Defined.

Lemma splash_blue_idle_white_witness :
  shown (trace (main (Bench.platform Bench.calibrated) 0 Bench.argv
                     [char "s"; ESC] tt))
  = [splash_frame Bench.params; idle_frame Bench.params;
     idle_frame Bench.params; idle_frame Bench.params] /\
  let P := Bench.platform Bench.calibrated in
  let p := sl_params (Bench.session 0 Bench.calibrated) in
  (exists n, shown (trace (main P 0 Bench.argv [char "s"; ESC] tt))
             = splash_frame p :: repeat (idle_frame p) (S n)) /\
  (width (splash_frame p) = proj_w p /\ height (splash_frame p) = proj_h p /\
   image_all blue (splash_frame p)) /\
  (forall s' k w', shown (snd (iteration P s' k w'))
                   = [cvSetImage (proj_frame s') idle_colour]) /\
  image_all white (idle_frame p) /\
  (pixel_of_scalar 3 splash_colour = blue /\
   pixel_of_scalar 3 idle_colour = white /\ blue <> white) /\
  (0 < proj_w p * proj_h p -> splash_frame p <> idle_frame p).
Proof.
  split; [vm_compute; reflexivity |].
  exact (splash_blue_idle_white
           (Bench.platform Bench.calibrated) 0 Bench.argv [char "s"; ESC] tt tt
           (Bench.session 0 Bench.calibrated) (Bench.calls 0 Bench.calibrated)
           calibrated_rig_starts).
Defined.

(** ** Exit codes on the rig *)

(** C2 on the Kinect back end (any [USE_CAMERA_ID] other than 0, 1, 2; 3
    here): with no Kinect attached, and with a Kinect that cannot be
    opened, [main] returns 0, the code of a clean exit. *)
Theorem kinect_startup_failure_returns_zero :
  outcome (main (Bench.platform Bench.no_kinect) 3 Bench.argv [] tt) = Exited 0 /\
  outcome (main (Bench.platform Bench.kinect_unopened) 3 Bench.argv [] tt) = Exited 0 /\
  outcome (main (Bench.platform Bench.calibrated) 3 Bench.argv [ESC] tt) = Exited 0.
Proof. vm_compute. repeat split. Qed.

(** The other fatal start-up errors return -1 (once a key is pressed where
    the program asks for one), and the escape key returns 0. *)
Lemma other_startup_failures_return_minus_one :
  outcome (main (Bench.platform Bench.no_config) 0 Bench.argv [char "x"] tt)
    = Exited (-1) /\
  outcome (main (Bench.platform Bench.init_fails) 0 Bench.argv [] tt) = Exited (-1) /\
  outcome (main (Bench.platform Bench.capture_fails) 0 Bench.argv [] tt) = Exited (-1) /\
  outcome (main (Bench.platform Bench.no_frame) 0 Bench.argv [char "x"] tt)
    = Exited (-1) /\
  outcome (main (Bench.platform Bench.calibrated) 0 Bench.argv [char "s"; ESC] tt)
    = Exited 0.
Proof. vm_compute. repeat split. Qed.

Lemma key_dispatch_witness :
  startup (Bench.platform Bench.calibrated) 0 Bench.argv tt
  = (Val (Bench.session 0 Bench.calibrated), tt, Bench.calls 0 Bench.calibrated) /\
  main (Bench.platform Bench.calibrated) 0 Bench.argv [char "r"; char "a"; ESC] tt
  = @at_getch (Bench.platform Bench.calibrated) [char "r"; char "a"; ESC]
      (repainted (Bench.session 0 Bench.calibrated)) tt
      (Bench.calls 0 Bench.calibrated
       ++ [EvShowImage "projWindow"
             (proj_frame (repainted (Bench.session 0 Bench.calibrated)))])%list.
Proof.
  split; [exact calibrated_rig_starts |].
  pose proof (key_dispatch (Bench.platform Bench.calibrated)
                (Bench.session 0 Bench.calibrated) tt [] []) as H.
  cbv zeta in H.
  destruct H as (_ & _ & _ & _ & _ & _ & _ & _ & _ & H).
  exact (H 0 Bench.argv [char "r"; char "a"; ESC] tt tt
           (Bench.session 0 Bench.calibrated) (Bench.calls 0 Bench.calibrated)
           calibrated_rig_starts).
Defined.

(** The calls of that run, the background after the reset, and the exit
    code. *)
Lemma reset_then_joint_calibration_then_escape :
  let r := main (Bench.platform Bench.calibrated) 0 Bench.argv
                [char "r"; char "a"; ESC] tt in
  let p := Bench.params in
  outcome r = Exited 0 /\
  trace r
  = (startup_events "./config.xml" p
     ++ [EvShowImage "projWindow" (idle_frame p);
         EvShowImage "projWindow" (idle_frame p);
         EvShowImage "projWindow" (idle_frame p);
         EvRunProjectorCalibration true;
         EvShowImage "projWindow" (idle_frame p);
         EvWriteConfiguration "./config.xml" p;
         EvEndCapture])%list /\
  background (with_default_background (sl_calib (Bench.session 0 Bench.calibrated)))
  = default_background 4 3.
Proof. vm_compute. repeat split. Qed.

(** The letters are matched in lower case: the character 'S' (shift or
    caps lock) reaches no branch and no engine runs. *)
Lemma upper_case_letter_not_dispatched :
  engine_calls (trace (main (Bench.platform Bench.calibrated) 0 Bench.argv
                            [char "S"; ESC] tt)) = [] /\
  engine_calls (trace (main (Bench.platform Bench.calibrated) 0 Bench.argv
                            [char "s"; ESC] tt)) = [EvRunStructuredLight 1].
Proof. vm_compute. split; reflexivity. Qed.

Lemma exit_codes_witness :
  outcome (main (Bench.platform Bench.no_kinect) 3 Bench.argv [] tt) = Exited 0 /\
  ((0 = 0 /\ existsb (Z.eqb ESC) [] = true /\
    exists s w1 ev,
      startup (Bench.platform Bench.no_kinect) 3 Bench.argv tt = (Val s, w1, ev)) \/
   (0 = 0 /\ 3 <> 0 /\ 3 <> 1 /\ 3 <> 2 /\
    (GetKinectCount (Bench.platform Bench.no_kinect) tt < 1 \/
     GetKinect (Bench.platform Bench.no_kinect) tt = false)) \/
   0 = -1).
Proof.
  assert (H : outcome (main (Bench.platform Bench.no_kinect) 3 Bench.argv [] tt)
              = Exited 0) by (vm_compute; reflexivity).
  split; [exact H |].
  exact (exit_codes (Bench.platform Bench.no_kinect) 3 Bench.argv [] tt 0 H).
Defined.

(* ================================================================= *)
(** * More on the Kinect helpers                                       *)
(* ================================================================= *)

Section KinectMore.

Import Kinect Raw.
Local Open Scope Z_scope.

(** ** Depth pixel to RGB pixel, in exact arithmetic *)

(** [KinectDepthToWorld] followed by the projection of
    [KinectWorldToRGBSpace] sends the depth pixel (x, y) at raw depth z to
    an RGB position that is affine in the pixel, with scale 21/23 about
    the image centre (320, 240), plus a shift that falls off as 1/(z - 10);
    the depth-dependent factor (z - 10) of the world coordinates cancels.
    At z = 10 the code divides by zero. *)
Theorem depth_pixel_to_rgb_pixel (x y z : Q) :
  ~ (z == 10)%Q ->
  let w := @KinectDepthToWorld Exact.arith x y z in
  let p := @rgb_projection Exact.arith (fst (fst w)) (snd (fst w)) (snd w) in
  (fst p == 320 + (x - 320) * (21 # 23) - (18000 # 23) / (z - 10))%Q /\
  (snd p == 240 + (y - 240) * (21 # 23) - (24000 # 23) / (z - 10))%Q.
Proof.
  intros Hz. cbv zeta.
  unfold KinectDepthToWorld, rgb_projection, world_axis_to_depth, depth_axis_to_world,
    Kinect_MinDistance, Kinect_DepthScaleFactor, Kinect_ColorScaleFactor,
    Kinect_rgbxoffset, Kinect_rgbyoffset.
  cbn [fst snd fadd fsub fmul fdiv dadd ddiv float_of_int float_dec double_dec
       double_of_float float_of_double Exact.arith].
  change (Exact.dec 21 4) with (21 # 10000)%Q.
  change (Exact.dec 23 4) with (23 # 10000)%Q.
  change (Exact.dec (-18) 1) with (-18 # 10)%Q.
  change (Exact.dec (-24) 1) with (-24 # 10)%Q.
  change (inject_Z 320) with (320 # 1)%Q.
  change (inject_Z 240) with (240 # 1)%Q.
  change (inject_Z 200) with (200 # 1)%Q.
  change (inject_Z (-10)) with (-10 # 1)%Q.
  change (inject_Z (-1)) with (-1 # 1)%Q.
  assert (Hz' : ~ (z - 10 == 0)%Q).
  { intro H. apply Hz. rewrite <- (Qplus_0_l 10). rewrite <- H. ring. }
  split; field; exact Hz'.
Qed.

(** ** The clamp, case by case *)

Lemma clamp_cases (m : positive) (e : Z) (v : spec_float) :
  let lo := S754_zero false in
  let hi := S754_finite false m e in
  let r := @__min IEEE.arith hi (@__max IEEE.arith lo v) in
  (SFleb lo v = true -> SFleb v hi = true -> r = v) /\
  (SFltb v lo = true -> r = lo) /\
  (SFltb hi v = true -> r = hi).
Proof.
  cbv zeta. unfold __min, __max. cbn [flt fgt IEEE.arith].
  split; [| split].
  - intros Hlo Hhi.
    assert (H1 : SFltb v (S754_zero false) = false).
    { unfold SFleb, SFltb in *.
      destruct (SFcompare (S754_zero false) v) as [c |] eqn:E; [| discriminate].
      rewrite (SFcompare_swap _ _ _ E). destruct c; try discriminate; reflexivity. }
    rewrite H1.
    unfold SFleb, SFltb in *.
    destruct (SFcompare v (S754_finite false m e)) as [c |] eqn:E; [| discriminate].
    rewrite (SFcompare_swap _ _ _ E). destruct c; try discriminate; reflexivity.
  - intros Hlt. rewrite Hlt. reflexivity.
  - intros Hgt.
    destruct v as [s | s | | s mv ev]; try discriminate Hgt.
    + destruct s; [discriminate Hgt | reflexivity].
    + destruct s; [discriminate Hgt |].
      change (SFltb (S754_finite false mv ev) (S754_zero false)) with false.
      cbv iota. rewrite Hgt. reflexivity.
Qed.

(** [KinectWorldToRGBSpace] returns the projected coordinate itself when it
    lies within the image bounds, 0 when it is below 0, and the bound (640
    for x, 480 for y) when it is above. *)
Theorem KinectWorldToRGBSpace_cases (x y z : spec_float) :
  let p := @rgb_projection IEEE.arith x y z in
  let r := @KinectWorldToRGBSpace IEEE.arith x y z in
  ((IEEE.within 0 640 (fst p) -> fst r = fst p) /\
   (SFltb (fst p) (IEEE.f32 0) = true -> fst r = IEEE.f32 0) /\
   (SFltb (IEEE.f32 640) (fst p) = true -> fst r = IEEE.f32 640)) /\
  ((IEEE.within 0 480 (snd p) -> snd r = snd p) /\
   (SFltb (snd p) (IEEE.f32 0) = true -> snd r = IEEE.f32 0) /\
   (SFltb (IEEE.f32 480) (snd p) = true -> snd r = IEEE.f32 480)).
Proof.
  cbv zeta. unfold KinectWorldToRGBSpace, IEEE.within.
  destruct (@rgb_projection IEEE.arith x y z) as [ox oy]. cbn [fst snd].
  split.
  - destruct (clamp_cases 10485760 (-14) ox) as (Hin & Hlo & Hhi).
    split; [| split].
    + intros [H1 H2]. exact (Hin H1 H2).
    + exact Hlo.
    + exact Hhi.
  - destruct (clamp_cases 15728640 (-15) oy) as (Hin & Hlo & Hhi).
    split; [| split].
    + intros [H1 H2]. exact (Hin H1 H2).
    + exact Hlo.
    + exact Hhi.
Qed.

(** ** Binary32 results on every raw reading *)

Lemma all_below_spec (n : nat) (f : Z -> bool) :
  all_below n f = true -> forall d, 0 <= d < Z.of_nat n -> f d = true.
Proof.
  induction n as [| k IH]; intros H d Hd; [lia |].
  cbn [all_below] in H. apply andb_true_iff in H as [Hk Hrest].
  destruct (Z.eq_dec d (Z.of_nat k)) as [-> | Hne]; [exact Hk |].
  apply IH; [exact Hrest | lia].
Qed.

Lemma same_float_eq (a b : spec_float) : same_float a b = true -> a = b.
Proof.
  destruct a as [s | s | | s m e], b as [s' | s' | | s' m' e']; cbn; try discriminate;
    try (intro H; apply Bool.eqb_prop in H; congruence); try reflexivity.
  intro H. apply andb_true_iff in H as [H He]. apply andb_true_iff in H as [Hs Hm].
  apply Bool.eqb_prop in Hs. apply Pos.eqb_eq in Hm. apply Z.eqb_eq in He. congruence.
Qed.

Lemma depth_to_Z_table : all_below 2048 depth_to_Z_check = true.
Proof. vm_compute. reflexivity. Qed.

Lemma depth_axis_table : all_below 2048 depth_axis_check = true.
Proof. vm_compute. reflexivity. Qed.

(** On every raw reading [Kinect_DepthValueToZ] divides by a non-zero
    denominator and returns a finite non-zero number; the result is
    positive exactly for the readings up to 1084 and negative from 1085 on
    (the pole of 100 / (3.33 - 0.00307 d) lies between them), and on either
    side of the pole it grows strictly with the reading. *)
Theorem Kinect_DepthValueToZ_on_raw_depths (d : Z) :
  is_raw_depth d ->
  let v := @Kinect_DepthValueToZ IEEE.arith d in
  (exists s m e, v = S754_finite s m e) /\
  (SFltb (IEEE.f32 0) v = true <-> d <= 1084) /\
  (SFltb v (IEEE.f32 0) = true <-> 1085 <= d) /\
  (d <> 1084 -> SFltb v (@Kinect_DepthValueToZ IEEE.arith (d + 1)) = true).
Proof.
  intros Hd v. unfold is_raw_depth in Hd.
  assert (H : depth_to_Z_check d = true)
    by (apply (all_below_spec 2048 _ depth_to_Z_table); lia).
  unfold depth_to_Z_check in H. fold v in H.
  apply andb_true_iff in H as [H Hmono].
  apply andb_true_iff in H as [H Hneg].
  apply andb_true_iff in H as [Hfin Hpos].
  apply Bool.eqb_prop in Hpos, Hneg.
  split; [| split; [| split]].
  - destruct v; try discriminate Hfin. eauto.
  - rewrite Hpos. apply Z.leb_le.
  - rewrite Hneg. apply Z.leb_le.
  - intro Hne. apply orb_true_iff in Hmono as [Heq | Hlt]; [| exact Hlt].
    apply Z.eqb_eq in Heq. contradiction.
Qed.

(** For every raw reading, the depth [KinectWorldToRGBSpace] recovers from
    the world z that [KinectDepthToWorld] produced is the reading itself,
    exactly, in binary32. *)
Theorem depth_axis_exact_on_raw_depths (x y : spec_float) (d : Z) :
  is_raw_depth d ->
  @world_axis_to_depth IEEE.arith
     (snd (@KinectDepthToWorld IEEE.arith x y (IEEE.f32 d))) = IEEE.f32 d.
Proof.
  intros Hd. unfold is_raw_depth in Hd.
  apply same_float_eq.
  apply (all_below_spec 2048 depth_axis_check depth_axis_table). lia.
Qed.

End KinectMore.

(* ================================================================= *)
(** * More on the scanner front end                                    *)
(* ================================================================= *)

Ltac flat_calib :=
  cbn [cam_intrinsic_calib proj_intrinsic_calib procam_extrinsic_calib
       cam_intrinsic cam_distortion cam_extrinsic proj_intrinsic proj_distortion
       proj_extrinsic cam_center proj_center cam_rays proj_rays
       proj_column_planes proj_row_planes fundMatrx
       background_depth_map background_image background_mask andb].

Section Avoidance.

Import OpenCV Scanner Observe.
Context (P : Platform).
Variable bad : Event -> bool.

Lemma avoids_ret {A : Type} (a : A) : avoids bad (ret P a).
Proof. intro w. reflexivity. Qed.

Lemma avoids_observe {A : Type} (f : World P -> A) : avoids bad (observe P f).
Proof. intro w. reflexivity. Qed.

Lemma avoids_call {A : Type} (e : Event) (f : World P -> World P * A) :
  bad e = false -> avoids bad (call P e f).
Proof. intros He w. unfold call. destruct (f w). cbn. rewrite He. reflexivity. Qed.

Lemma avoids_emit (e : Event) : bad e = false -> avoids bad (emit P e).
Proof. intros He w. cbn. rewrite He. reflexivity. Qed.

Lemma avoids_bind {A B : Type} (m : Act P A) (k : A -> Act P B) :
  avoids bad m -> (forall a, avoids bad (k a)) -> avoids bad (bind P m k).
Proof.
  intros Hm Hk w. unfold bind. specialize (Hm w).
  destruct (m w) as [[a wa] ea]. specialize (Hk a wa).
  destruct (k a wa) as [[b wb] eb]. cbn [snd] in *.
  rewrite existsb_app, Hm, Hk. reflexivity.
Qed.

Lemma avoids_ok {A : Type} (m : Act P A) : avoids bad m -> avoids bad (ok P m).
Proof. intro H. apply avoids_bind; [exact H | intro; apply avoids_ret]. Qed.

Lemma avoids_bindP {A B : Type} (m : Proc P A) (k : A -> Proc P B) :
  avoids bad m -> (forall a, avoids bad (k a)) -> avoids bad (bindP P m k).
Proof.
  intros Hm Hk. apply avoids_bind; [exact Hm |].
  intros [a | st]; [apply Hk | apply avoids_ret].
Qed.

End Avoidance.

Ltac avoid_steps :=
  repeat first
    [ apply avoids_ret | apply avoids_observe
    | apply avoids_call; reflexivity | apply avoids_emit; reflexivity
    | apply avoids_ok | apply avoids_bindP | apply avoids_bind
    | match goal with
      | |- forall _, avoids _ _ => intro
      | |- avoids _ (if ?b then _ else _) => destruct b
      | |- avoids _ (match ?x with _ => _ end) => destruct x
      end ].

Section ScannerMore.

Import OpenCV Scanner Observe.
Local Open Scope string_scope.
Local Open Scope Z_scope.

Context (P : Platform).

Local Arguments cvSetImage : simpl never.
Local Arguments clear_background : simpl never.
Local Arguments char : simpl never.
Local Arguments int_succ : simpl never.

(** ** Persisted calibration *)

Lemma loaded_matrices (p : slParams) (w : World P) :
  let c := loaded P p w in
  let dir := outdir p in
  guarded (cam_intrinsic_calib c) (cam_intrinsic c) (cam_distortion c)
          (cvLoad P w (dir ++ "\calib\cam\cam_intrinsic.xml"))
          (cvLoad P w (dir ++ "\calib\cam\cam_distortion.xml"))
          (cvCreateMat 3 3) (cvCreateMat 5 1) /\
  guarded (proj_intrinsic_calib c) (proj_intrinsic c) (proj_distortion c)
          (cvLoad P w (dir ++ "\calib\proj\proj_intrinsic.xml"))
          (cvLoad P w (dir ++ "\calib\proj\proj_distortion.xml"))
          (cvCreateMat 3 3) (cvCreateMat 5 1) /\
  guarded (procam_extrinsic_calib c) (cam_extrinsic c) (proj_extrinsic c)
          (cvLoad P w (dir ++ "\calib\proj\cam_extrinsic.xml"))
          (cvLoad P w (dir ++ "\calib\proj\proj_extrinsic.xml"))
          (cvCreateMat 2 3) (cvCreateMat 2 3) /\
  fundMatrx c = cvLoad P w (dir ++ "\calib\proj\fundamental_matrix.xml").
Proof.
  cbv zeta. unfold loaded. rewrite load_calibration_chain.
  unfold allocate_calibration.
  unfold load_cam_intrinsics, observe; cbn [fst snd].
  destruct (cvLoad P w (outdir p ++ "\calib\cam\cam_intrinsic.xml")) as [m1 |];
    [destruct (cvLoad P w (outdir p ++ "\calib\cam\cam_distortion.xml")) as [m2 |] |];
    flat_calib;
    unfold load_fundamental_matrix, observe; cbn [fst snd];
    (destruct (cvLoad P w (outdir p ++ "\calib\proj\fundamental_matrix.xml")) as [m3 |]);
    flat_calib;
    unfold load_proj_intrinsics, observe; cbn [fst snd];
    (destruct (cvLoad P w (outdir p ++ "\calib\proj\proj_intrinsic.xml")) as [m4 |];
     [destruct (cvLoad P w (outdir p ++ "\calib\proj\proj_distortion.xml")) as [m5 |] |]);
    flat_calib;
    unfold load_procam_extrinsics, observe; cbn [fst snd]; flat_calib;
    try (destruct (cvLoad P w (outdir p ++ "\calib\proj\cam_extrinsic.xml")) as [m6 |];
         [destruct (cvLoad P w (outdir p ++ "\calib\proj\proj_extrinsic.xml")) as [m7 |] |]);
    flat_calib; unfold guarded; repeat split.
Qed.

(** After start-up each validity flag and its two matrices agree: when
    the flag is set both matrices are the ones stored in the two files,
    and when it is clear both are still the blank allocations; no pair is
    ever half loaded.  The fundamental matrix is set exactly when its file
    loads, whatever the flags. *)
Theorem calibration_loaded_whole_or_not_at_all (id : Z) (argv : list string)
    (w w1 : World P) (s : Session) (ev : list Event) :
  startup P id argv w = (Val s, w1, ev) ->
  let c := sl_calib s in
  let dir := outdir (sl_params s) in
  guarded (cam_intrinsic_calib c) (cam_intrinsic c) (cam_distortion c)
          (cvLoad P w1 (dir ++ "\calib\cam\cam_intrinsic.xml"))
          (cvLoad P w1 (dir ++ "\calib\cam\cam_distortion.xml"))
          (cvCreateMat 3 3) (cvCreateMat 5 1) /\
  guarded (proj_intrinsic_calib c) (proj_intrinsic c) (proj_distortion c)
          (cvLoad P w1 (dir ++ "\calib\proj\proj_intrinsic.xml"))
          (cvLoad P w1 (dir ++ "\calib\proj\proj_distortion.xml"))
          (cvCreateMat 3 3) (cvCreateMat 5 1) /\
  guarded (procam_extrinsic_calib c) (cam_extrinsic c) (proj_extrinsic c)
          (cvLoad P w1 (dir ++ "\calib\proj\cam_extrinsic.xml"))
          (cvLoad P w1 (dir ++ "\calib\proj\proj_extrinsic.xml"))
          (cvCreateMat 2 3) (cvCreateMat 2 3) /\
  fundMatrx c = cvLoad P w1 (dir ++ "\calib\proj\fundamental_matrix.xml").
Proof.
  intro H. apply startup_inv in H as (p & -> & _).
  cbn [sl_calib sl_params]. exact (loaded_matrices p w1).
Qed.

(** ** Keystrokes *)

Lemma command_loop_on_escape (keys keys' : list Z) (s : Session) (w : World P)
    (done : list Event) :
  command_loop P keys s ESC w done = command_loop P keys' s ESC w done.
Proof.
  rewrite !command_loop_eq.
  pose proof (iteration_pass P s ESC w) as Hp. cbv zeta in Hp.
  destruct (iteration P s ESC w) as [[st w1] ev]. cbn [fst snd] in Hp.
  destruct Hp as (_ & _ & _ & _ & Hesc & _).
  destruct (Hesc eq_refl) as (Hb & _).
  destruct st as [s1 | s1 k1]; [reflexivity | discriminate Hb].
Qed.

Lemma command_loop_cut (pre post : list Z) :
  forall (s : Session) (k : Z) (w : World P) (done : list Event),
    command_loop P (pre ++ ESC :: post) s k w done
    = command_loop P (pre ++ [ESC]) s k w done.
Proof.
  induction pre as [| k1 pre IH]; intros s k w done;
    rewrite (command_loop_eq P (_ ++ ESC :: post)), (command_loop_eq P (_ ++ [ESC]));
    destruct (iteration P s k w) as [[st w1] ev];
    destruct st as [s1 | s1 k']; try reflexivity; cbn [app].
  - apply command_loop_on_escape.
  - apply IH.
Qed.

(** Whatever is typed after the first ESC has no effect on the run. *)
Theorem keys_after_escape_ignored (id : Z) (argv : list string) (pre post : list Z)
    (w : World P) :
  main P id argv (pre ++ ESC :: post) w = main P id argv (pre ++ [ESC]) w.
Proof.
  unfold main. destruct (startup P id argv w) as [[[s | st] w1] ev].
  - apply command_loop_cut.
  - f_equal. destruct st as [c | c]; [reflexivity |].
    destruct pre; reflexivity.
Qed.

Lemma scan_indices_app (a b : list Event) :
  scan_indices (a ++ b) = (scan_indices a ++ scan_indices b)%list.
Proof. apply flat_map_app. Qed.

Lemma iteration_scan (s : Session) (k : Z) (w : World P) :
  let r := iteration P s k w in
  scan_indices (snd r) = (if k =? char "s" then [int_succ (scan_index s)] else []) /\
  scan_index (step_session (fst (fst r)))
  = (if k =? char "s" then int_succ (scan_index s) else scan_index s).
Proof.
  cbv zeta.
  unfold iteration, engine, bind, call, emit, ret; cbn.
  destruct (Z.eqb_spec k 27) as [-> | Hk].
  { destruct (writeConfiguration P w (configFile s) (sl_params s)) as [ww pw].
    destruct (Logitech_9000 pw); cbn; split; reflexivity. }
  destruct (Z.eqb_spec k (char "s")) as [-> | Hs].
  { destruct (runStructuredLight P w _ _ _) as [[? ?] ?]. cbn. split; reflexivity. }
  destruct (Z.eqb_spec k (char "b")) as [-> | Hb].
  { destruct (runBackgroundCapture P w _ _) as [[? ?] ?]. cbn. split; reflexivity. }
  destruct (Z.eqb_spec k (char "r")) as [-> | Hr].
  { cbn. split; reflexivity. }
  destruct (Z.eqb_spec k (char "c")) as [-> | Hc].
  { destruct (runCameraCalibration P w _ _) as [[? ?] ?]. cbn. split; reflexivity. }
  destruct (Z.eqb_spec k (char "p")) as [-> | Hp].
  { destruct (runProjectorCalibration P w _ _ _) as [[? ?] ?]. cbn. split; reflexivity. }
  destruct (Z.eqb_spec k (char "a")) as [-> | Ha].
  { destruct (runProjectorCalibration P w _ _ _) as [[? ?] ?]. cbn. split; reflexivity. }
  destruct (Z.eqb_spec k (char "e")) as [-> | He].
  { destruct (runProCamExtrinsicCalibration P w _ _) as [[? ?] ?]. cbn. split; reflexivity. }
  cbn. split; reflexivity.
Qed.

Lemma int_succ_small (i : Z) : 0 <= i -> i + 1 < 2 ^ 31 -> int_succ i = i + 1.
Proof.
  intros H0 H1. unfold int_succ. apply int_wrap_small. unfold is_int. lia.
Qed.

Lemma scans_cons (k : Z) (rest : list Z) :
  scans_before_escape (k :: rest)
  = if k =? ESC then 0%nat
    else if k =? char "s" then S (scans_before_escape rest)
    else scans_before_escape rest.
Proof. reflexivity. Qed.

Lemma command_loop_scans (keys : list Z) :
  forall (s : Session) (k : Z) (w : World P) (done : list Event),
    0 <= scan_index s ->
    scan_index s + Z.of_nat (List.length (k :: keys)) < 2 ^ 31 ->
    scan_indices (trace (command_loop P keys s k w done))
    = (scan_indices done
       ++ map (fun j => scan_index s + Z.of_nat j)
              (seq 1 (scans_before_escape (k :: keys))))%list.
Proof.
  induction keys as [| k1 keys IH]; intros s k w done H0 Hlen;
    rewrite command_loop_eq;
    pose proof (iteration_pass P s k w) as Hp; cbv zeta in Hp;
    pose proof (iteration_scan s k w) as Hs; cbv zeta in Hs;
    destruct (iteration P s k w) as [[st w1] ev]; cbn [fst snd] in Hp, Hs;
    destruct Hp as (_ & _ & _ & _ & Hesc & Hoth);
    destruct Hs as (Hev & Hidx);
    rewrite scans_cons;
    destruct (Z.eqb_spec k ESC) as [Hk | Hk].
  - destruct (Hesc Hk) as (Hb & _). destruct st as [s1 | s1 k']; [| discriminate Hb].
    destruct (camera_EndCapture P w1) as [w2 rv]. cbn [trace].
    rewrite !scan_indices_app, Hev. subst k. cbn. rewrite !app_nil_r. reflexivity.
  - destruct (Hoth Hk) as (Hb & _). destruct st as [s1 | s1 k']; [discriminate Hb |].
    cbn [trace]. rewrite scan_indices_app, Hev.
    destruct (k =? char "s"); cbn [scans_before_escape seq map].
    + rewrite int_succ_small by (cbn [List.length] in Hlen; lia). reflexivity.
    + reflexivity.
  - destruct (Hesc Hk) as (Hb & _). destruct st as [s1 | s1 k']; [| discriminate Hb].
    destruct (camera_EndCapture P w1) as [w2 rv]. cbn [trace].
    rewrite !scan_indices_app, Hev. subst k. cbn. rewrite !app_nil_r. reflexivity.
  - destruct (Hoth Hk) as (Hb & _). destruct st as [s1 | s1 k']; [discriminate Hb |].
    cbn [step_session] in Hidx. cbn [List.length] in Hlen, IH.
    rewrite IH.
    + rewrite scan_indices_app, Hev, Hidx, <- app_assoc. f_equal.
      destruct (k =? char "s").
      * rewrite int_succ_small by lia.
        cbn [seq map app].
        replace (scan_index s + Z.of_nat 1) with (scan_index s + 1) by lia.
        apply (f_equal (cons (scan_index s + 1))).
        rewrite <- (seq_shift _ 1), map_map. apply map_ext. intro j. lia.
      * reflexivity.
    + rewrite Hidx. destruct (k =? char "s"); [rewrite int_succ_small |]; lia.
    + rewrite Hidx. destruct (k =? char "s"); [rewrite int_succ_small |]; lia.
Qed.

(** The scans of a session are numbered 1, 2, 3, ... in the order of the
    's' keystrokes that come before the first ESC; no other key advances
    the counter. *)
Theorem scans_are_numbered_from_one (id : Z) (argv : list string) (keys : list Z)
    (w w1 : World P) (s : Session) (ev : list Event) :
  startup P id argv w = (Val s, w1, ev) ->
  Z.of_nat (List.length keys) < 2 ^ 31 - 1 ->
  scan_indices (trace (main P id argv keys w))
  = map Z.of_nat (seq 1 (scans_before_escape keys)).
Proof.
  intros Hst Hlen. rewrite (main_started P _ _ keys _ _ _ _ Hst).
  apply startup_inv in Hst as (p & -> & ->).
  rewrite command_loop_scans.
  - cbn [scan_index]. change (scans_before_escape (NULL :: keys))
      with (scans_before_escape keys).
    reflexivity.
  - cbn [scan_index]. lia.
  - cbn [scan_index List.length]. lia.
Qed.

(** ** What runs, and when the camera is stopped *)

Lemma startup_avoids_loop_calls (id : Z) (argv : list string) :
  avoids loop_only (startup P id argv).
Proof.
  unfold startup, create_camera, read_config, start_camera, open_projector_window,
    create_output_directory, load_calibration, load_cam_intrinsics,
    load_fundamental_matrix, load_proj_intrinsics, load_procam_extrinsics, halt.
  avoid_steps.
Qed.

Lemma iteration_avoids_end_capture (s : Session) (k : Z) :
  avoids is_end_capture (iteration P s k).
Proof.
  unfold iteration, engine. avoid_steps.
Qed.

Lemma existsb_filter_nil {A : Type} (f g : A -> bool) (l : list A) :
  existsb (fun a => f a || g a) l = false -> filter f l = [] /\ existsb g l = false.
Proof.
  induction l as [| a l IH]; cbn; [auto |].
  intro H. apply orb_false_iff in H as [Ha Hl]. apply orb_false_iff in Ha as [Hf Hg].
  rewrite Hf, Hg. apply IH. exact Hl.
Qed.

Lemma existsb_end_capture (l : list Event) :
  existsb is_end_capture l = false -> ~ In EvEndCapture l.
Proof.
  intros H Hin. assert (Ht : existsb is_end_capture l = true).
  { apply existsb_exists. exists EvEndCapture. split; [exact Hin | reflexivity]. }
  congruence.
Qed.

(** When start-up fails, [main] has run no engine, written no
    configuration, and never calls [EndCapture], also when the failure
    comes after [StartCapture] succeeded. *)
Theorem failed_startup_runs_nothing (id : Z) (argv : list string) (keys : list Z)
    (w w1 : World P) (st : Stop) (ev : list Event) :
  startup P id argv w = (Halt st, w1, ev) ->
  trace (main P id argv keys w) = ev /\
  engine_calls ev = [] /\ config_writes ev = [] /\ ~ In EvEndCapture ev.
Proof.
  intro Hst. rewrite (main_halted P _ _ keys _ _ _ _ Hst). cbn [trace].
  pose proof (startup_avoids_loop_calls id argv w) as Ha.
  pose proof (startup_quiet P id argv w) as Hq.
  rewrite Hst in Ha, Hq. cbn [snd] in Ha, Hq.
  apply existsb_filter_nil in Ha as [He Hc].
  repeat split; try assumption. apply existsb_end_capture. exact Hc.
Qed.

Lemma command_loop_end_capture (keys : list Z) :
  forall (s : Session) (k : Z) (w : World P) (done : list Event),
    exists body,
      trace (command_loop P keys s k w done)
      = (done ++ body ++ if escape_pressed k keys then [EvEndCapture] else [])%list /\
      existsb is_end_capture body = false.
Proof.
  induction keys as [| k1 keys IH]; intros s k w done;
    rewrite command_loop_eq;
    pose proof (iteration_pass P s k w) as Hp; cbv zeta in Hp;
    pose proof (iteration_avoids_end_capture s k w) as Ha;
    destruct (iteration P s k w) as [[st w1] ev]; cbn [fst snd] in Hp, Ha;
    destruct Hp as (_ & _ & _ & _ & Hesc & Hoth);
    unfold escape_pressed;
    destruct (Z.eqb_spec k ESC) as [Hk | Hk].
  - destruct (Hesc Hk) as (Hb & _). destruct st as [s1 | s1 k']; [| discriminate Hb].
    destruct (camera_EndCapture P w1) as [w2 rv]. cbn [trace orb].
    exists ev. auto.
  - destruct (Hoth Hk) as (Hb & _). destruct st as [s1 | s1 k']; [discriminate Hb |].
    cbn [trace orb existsb]. exists ev. rewrite app_nil_r. auto.
  - destruct (Hesc Hk) as (Hb & _). destruct st as [s1 | s1 k']; [| discriminate Hb].
    destruct (camera_EndCapture P w1) as [w2 rv]. cbn [trace orb].
    exists ev. auto.
  - destruct (Hoth Hk) as (Hb & _). destruct st as [s1 | s1 k']; [discriminate Hb |].
    destruct (IH s1 k1 w1 (done ++ ev)%list) as (body & Ht & Hbody).
    exists (ev ++ body)%list. rewrite Ht. cbn [orb existsb].
    unfold escape_pressed. rewrite (Z.eqb_sym ESC k1), <- !app_assoc.
    split; [reflexivity |]. rewrite existsb_app, Ha, Hbody. reflexivity.
Qed.

(** In a session that reached the command loop, [camera->EndCapture()] is
    called exactly when an ESC ends the loop, and then once, after every
    other call of the run that [Event] lists (configuration reader and
    writer, camera, [_mkdir], [system], [cvShowImage], engines); without an
    ESC it is not called.  What [main] does after it (lines 324-350: the
    deletes, [cvReleaseMat], [cvReleaseImage], [cvDestroyWindow]) is none
    of these calls. *)
Theorem camera_stopped_once_on_clean_exit (id : Z) (argv : list string) (keys : list Z)
    (w w1 : World P) (s : Session) (ev : list Event) :
  startup P id argv w = (Val s, w1, ev) ->
  exists calls,
    trace (main P id argv keys w)
    = (calls ++ if existsb (Z.eqb ESC) keys then [EvEndCapture] else [])%list /\
    ~ In EvEndCapture calls.
Proof.
  intro Hst. rewrite (main_started P _ _ keys _ _ _ _ Hst).
  destruct (command_loop_end_capture keys s NULL w1 ev) as (body & Ht & Hbody).
  exists (ev ++ body)%list. rewrite Ht, <- app_assoc.
  unfold escape_pressed. change (NULL =? ESC) with false. cbn [orb].
  split; [reflexivity |].
  apply existsb_end_capture. rewrite existsb_app, Hbody, orb_false_r.
  pose proof (startup_avoids_loop_calls id argv w) as Ha. rewrite Hst in Ha.
  cbn [snd] in Ha. apply existsb_filter_nil in Ha as [_ Hc]. exact Hc.
Qed.

(** On the OpenCV, Canon and PointGrey back ends a configuration file
    that cannot be opened ends [main] with -1, once a key is pressed, and
    none of the calls that [Event] lists has been made: the configuration
    is not read, the camera is not initialised or started, nothing is
    shown, and neither [_mkdir] nor [system] is called.  (The camera and
    engine objects are constructed before the file is opened, lines 50-56
    and 85-86; constructors are not among these calls.) *)
Theorem missing_configuration_skips_camera_and_disk (id : Z) (argv : list string)
    (keys : list Z) (w : World P) :
  id = 0 \/ id = 1 \/ id = 2 ->
  fopen_r P w (select_config argv) = false ->
  outcome (main P id argv keys w)
  = match keys with [] => Waiting | _ :: _ => Exited (-1) end /\
  trace (main P id argv keys w) = [].
Proof.
  intros Hid Hf.
  assert (Hst : startup P id argv w = (Halt (GetchReturn (-1)), w, [])).
  { unfold startup.
    assert (Hc : create_camera P id w = (Val tt, w, [])).
    { unfold create_camera. destruct Hid as [-> | [-> | ->]]; reflexivity. }
    unfold bindP at 1. unfold bind at 1. rewrite Hc.
    rewrite (bindP_halts P (read_config P (select_config argv)) _ w w
               (GetchReturn (-1)) []).
    - reflexivity.
    - unfold read_config, bindP, ok, halt, bind, ret, observe. cbn. rewrite Hf.
      reflexivity. }
  rewrite (main_halted P _ _ keys _ _ _ _ Hst). split; reflexivity.
Qed.

(** ** The run as a function of the keystrokes *)

Lemma engine_calls_app (a b : list Event) :
  engine_calls (a ++ b) = (engine_calls a ++ engine_calls b)%list.
Proof. apply filter_app. Qed.

Lemma iteration_engine (s : Session) (k : Z) (w : World P) :
  k <> ESC ->
  engine_calls (snd (iteration P s k w)) = call_of_key (scan_index s) k.
Proof.
  intro Hk. unfold call_of_key.
  unfold iteration, engine, bind, call, emit, ret; cbn.
  destruct (Z.eqb_spec k 27) as [E | _]; [contradiction |].
  destruct (Z.eqb_spec k (char "s")) as [-> | Hs].
  { destruct (runStructuredLight P w _ _ _) as [[? ?] ?]. reflexivity. }
  destruct (Z.eqb_spec k (char "b")) as [-> | Hb].
  { destruct (runBackgroundCapture P w _ _) as [[? ?] ?]. reflexivity. }
  destruct (Z.eqb_spec k (char "r")) as [-> | Hr].
  { reflexivity. }
  destruct (Z.eqb_spec k (char "c")) as [-> | Hc].
  { destruct (runCameraCalibration P w _ _) as [[? ?] ?]. reflexivity. }
  destruct (Z.eqb_spec k (char "p")) as [-> | Hp].
  { destruct (runProjectorCalibration P w _ _ _) as [[? ?] ?]. reflexivity. }
  destruct (Z.eqb_spec k (char "a")) as [-> | Ha].
  { destruct (runProjectorCalibration P w _ _ _) as [[? ?] ?]. reflexivity. }
  destruct (Z.eqb_spec k (char "e")) as [-> | He].
  { destruct (runProCamExtrinsicCalibration P w _ _) as [[? ?] ?]. reflexivity. }
  reflexivity.
Qed.

Lemma calls_of_keys_cons (idx k : Z) (rest : list Z) :
  calls_of_keys idx (k :: rest)
  = if k =? ESC then []
    else (call_of_key idx k
          ++ calls_of_keys (if k =? char "s" then int_succ idx else idx) rest)%list.
Proof. reflexivity. Qed.

Lemma command_loop_engines (keys : list Z) :
  forall (s : Session) (k : Z) (w : World P) (done : list Event),
    engine_calls (trace (command_loop P keys s k w done))
    = (engine_calls done ++ calls_of_keys (scan_index s) (k :: keys))%list.
Proof.
  induction keys as [| k1 keys IH]; intros s k w done;
    rewrite command_loop_eq;
    pose proof (iteration_pass P s k w) as Hp; cbv zeta in Hp;
    pose proof (iteration_scan s k w) as Hs; cbv zeta in Hs;
    pose proof (iteration_engine s k w) as He;
    destruct (iteration P s k w) as [[st w1] ev]; cbn [fst snd] in Hp, Hs, He;
    destruct Hp as (_ & _ & _ & _ & Hesc & Hoth);
    destruct Hs as (_ & Hidx);
    rewrite calls_of_keys_cons;
    destruct (Z.eqb_spec k ESC) as [Hk | Hk].
  - destruct (Hesc Hk) as (Hb & _ & Hnone).
    destruct st as [s1 | s1 k']; [| discriminate Hb].
    destruct (camera_EndCapture P w1) as [w2 rv]. cbn [trace].
    rewrite !engine_calls_app, Hnone. reflexivity.
  - destruct (Hoth Hk) as (Hb & _). destruct st as [s1 | s1 k']; [discriminate Hb |].
    cbn [trace calls_of_keys]. rewrite engine_calls_app, (He Hk), app_nil_r.
    reflexivity.
  - destruct (Hesc Hk) as (Hb & _ & Hnone).
    destruct st as [s1 | s1 k']; [| discriminate Hb].
    destruct (camera_EndCapture P w1) as [w2 rv]. cbn [trace].
    rewrite !engine_calls_app, Hnone. reflexivity.
  - destruct (Hoth Hk) as (Hb & _). destruct st as [s1 | s1 k']; [discriminate Hb |].
    cbn [step_session] in Hidx.
    rewrite IH, engine_calls_app, (He Hk), Hidx, <- app_assoc. reflexivity.
Qed.

(** The engine calls of a session are exactly those its keystrokes ask
    for, one per bound letter, in the order typed, up to the first ESC. *)
Theorem engines_follow_the_keys (id : Z) (argv : list string) (keys : list Z)
    (w w1 : World P) (s : Session) (ev : list Event) :
  startup P id argv w = (Val s, w1, ev) ->
  engine_calls (trace (main P id argv keys w)) = calls_of_keys 0 keys.
Proof.
  intro Hst. rewrite (main_started P _ _ keys _ _ _ _ Hst).
  rewrite command_loop_engines.
  pose proof (startup_avoids_loop_calls id argv w) as Ha. rewrite Hst in Ha.
  cbn [snd] in Ha. apply existsb_filter_nil in Ha as [Hn _].
  unfold engine_calls at 1. rewrite Hn.
  apply startup_inv in Hst as (p & -> & _). reflexivity.
Qed.

(** Resetting the background a second time changes nothing: the pass
    returns the same session, world and call as the first. *)
Theorem reset_twice_is_reset_once (s : Session) (w : World P) :
  let once := iteration P s (char "r") w in
  iteration P (step_session (fst (fst once))) (char "r") (snd (fst once)) = once.
Proof.
  cbv zeta.
  change (iteration P s (char "r") w)
    with (Continue (mkSession (configFile s) (sl_params s)
                              (clear_background (sl_calib s))
                              (cvSetImage (proj_frame s) idle_colour) (scan_index s))
                   NULL,
          w, [EvShowImage "projWindow" (cvSetImage (proj_frame s) idle_colour)]).
  cbn [fst snd step_session].
  change (iteration P ?s' (char "r") w) with
    (Continue (mkSession (configFile s') (sl_params s')
                              (clear_background (sl_calib s'))
                              (cvSetImage (proj_frame s') idle_colour) (scan_index s'))
                   NULL,
          w, [EvShowImage "projWindow" (cvSetImage (proj_frame s') idle_colour)]).
  cbn [configFile sl_params sl_calib proj_frame scan_index].
  rewrite clear_background_idem, cvSetImage_again. reflexivity.
Qed.

(** A start-up that reaches the command loop keeps the configuration file
    selected from the command line, starts the scan counter at 0, and has
    made these calls of the kinds [Event] lists, in this order and no
    others of these kinds: [readConfiguration] of that file, the camera's
    [Init], [StartCapture] and [QueryFrame], [cvShowImage] of the splash
    frame, [_mkdir] of the output directory and of the object directory,
    [system] with the command line [rd /s /q] followed by the quoted
    object directory, and [_mkdir] of the object directory again.  (Window
    creation and placement, [cvWaitKey] and [cvLoad] are not among these
    kinds, and what [system] does with the command line is the
    platform's.) *)
Theorem successful_startup_calls (id : Z) (argv : list string)
    (w w1 : World P) (s : Session) (ev : list Event) :
  startup P id argv w = (Val s, w1, ev) ->
  configFile s = select_config argv /\ scan_index s = 0 /\
  ev = startup_events (select_config argv) (sl_params s).
Proof.
  intro H. apply startup_inv in H as (p & -> & ->). repeat split.
Qed.

End ScannerMore.

(* ================================================================= *)
(** * The further properties on concrete inputs                        *)
(* ================================================================= *)

Import Kinect Raw.

Lemma depth_pixel_to_rgb_pixel_witness :
  ~ (700 == 10)%Q /\
  let w := @KinectDepthToWorld Exact.arith (100 # 1) (50 # 1) (700 # 1) in
  let p := @rgb_projection Exact.arith (fst (fst w)) (snd (fst w)) (snd w) in
  (fst p == 320 + (100 - 320) * (21 # 23) - (18000 # 23) / (700 - 10))%Q /\
  (snd p == 240 + (50 - 240) * (21 # 23) - (24000 # 23) / (700 - 10))%Q.
Proof.
  assert (H : ~ (700 == 10)%Q) by (intro E; discriminate E).
  split; [exact H | exact (depth_pixel_to_rgb_pixel 100 50 700 H)].
Defined.

Lemma raw_700 : is_raw_depth 700.
Proof. unfold is_raw_depth. lia. Qed.

Lemma Kinect_DepthValueToZ_on_raw_depths_witness :
  is_raw_depth 700 /\
  let v := @Kinect_DepthValueToZ IEEE.arith 700 in
  (exists s m e, v = S754_finite s m e) /\
  (SFltb (IEEE.f32 0) v = true <-> 700 <= 1084) /\
  (SFltb v (IEEE.f32 0) = true <-> 1085 <= 700) /\
  (700 <> 1084 -> SFltb v (@Kinect_DepthValueToZ IEEE.arith (700 + 1)) = true).
Proof.
  split; [exact raw_700 | exact (Kinect_DepthValueToZ_on_raw_depths 700 raw_700)].
Defined.

Lemma depth_axis_exact_on_raw_depths_witness :
  is_raw_depth 700 /\
  @world_axis_to_depth IEEE.arith
     (snd (@KinectDepthToWorld IEEE.arith (IEEE.f32 100) (IEEE.f32 50) (IEEE.f32 700)))
  = IEEE.f32 700.
Proof.
  split; [exact raw_700 |].
  exact (depth_axis_exact_on_raw_depths (IEEE.f32 100) (IEEE.f32 50) 700 raw_700).
Defined.

Lemma unbound_key_ignored_witness :
  ~ In (char "S")
       [ESC; char "s"; char "b"; char "r"; char "c"; char "p"; char "a"; char "e"] /\
  iteration (Bench.platform Bench.calibrated) (Bench.session 0 Bench.calibrated)
            (char "S") tt
  = (Continue (repainted (Bench.session 0 Bench.calibrated)) (char "S"), tt,
     [EvShowImage "projWindow"
        (cvSetImage (proj_frame (Bench.session 0 Bench.calibrated)) idle_colour)]).
Proof.
  assert (H : ~ In (char "S")
                   [ESC; char "s"; char "b"; char "r"; char "c"; char "p";
                    char "a"; char "e"]).
  { intro Hin. cbn in Hin.
    repeat (destruct Hin as [Hin | Hin]; [discriminate Hin |]). exact Hin. }
  split; [exact H |].
  exact (unbound_key_ignored (Bench.platform Bench.calibrated)
           (Bench.session 0 Bench.calibrated) (char "S") tt H).
Defined.

Lemma calibration_loaded_whole_or_not_at_all_witness :
  flags (sl_calib (Bench.session 0 Bench.calibrated)) = (true, true, true) /\
  let P := Bench.platform Bench.calibrated in
  let c := sl_calib (Bench.session 0 Bench.calibrated) in
  let dir := outdir (sl_params (Bench.session 0 Bench.calibrated)) in
  guarded (cam_intrinsic_calib c) (cam_intrinsic c) (cam_distortion c)
          (cvLoad P tt (dir ++ "\calib\cam\cam_intrinsic.xml"))
          (cvLoad P tt (dir ++ "\calib\cam\cam_distortion.xml"))
          (cvCreateMat 3 3) (cvCreateMat 5 1) /\
  guarded (proj_intrinsic_calib c) (proj_intrinsic c) (proj_distortion c)
          (cvLoad P tt (dir ++ "\calib\proj\proj_intrinsic.xml"))
          (cvLoad P tt (dir ++ "\calib\proj\proj_distortion.xml"))
          (cvCreateMat 3 3) (cvCreateMat 5 1) /\
  guarded (procam_extrinsic_calib c) (cam_extrinsic c) (proj_extrinsic c)
          (cvLoad P tt (dir ++ "\calib\proj\cam_extrinsic.xml"))
          (cvLoad P tt (dir ++ "\calib\proj\proj_extrinsic.xml"))
          (cvCreateMat 2 3) (cvCreateMat 2 3) /\
  fundMatrx c = cvLoad P tt (dir ++ "\calib\proj\fundamental_matrix.xml").
Proof.
  split; [vm_compute; reflexivity |].
  exact (calibration_loaded_whole_or_not_at_all
           (Bench.platform Bench.calibrated) 0 Bench.argv tt tt
           (Bench.session 0 Bench.calibrated) (Bench.calls 0 Bench.calibrated)
           calibrated_rig_starts).
Defined.

Lemma bench_keys_short :
  Z.of_nat (List.length [char "s"; char "r"; char "s"; ESC; char "s"]) < 2 ^ 31 - 1.
Proof. vm_compute. reflexivity. Qed.

Lemma scans_are_numbered_from_one_witness :
  scan_indices (trace (main (Bench.platform Bench.calibrated) 0 Bench.argv
                            [char "s"; char "r"; char "s"; ESC; char "s"] tt))
  = [1; 2] /\
  scan_indices (trace (main (Bench.platform Bench.calibrated) 0 Bench.argv
                            [char "s"; char "r"; char "s"; ESC; char "s"] tt))
  = map Z.of_nat
        (seq 1 (scans_before_escape [char "s"; char "r"; char "s"; ESC; char "s"])).
Proof.
  split; [vm_compute; reflexivity |].
  exact (scans_are_numbered_from_one
           (Bench.platform Bench.calibrated) 0 Bench.argv
           [char "s"; char "r"; char "s"; ESC; char "s"] tt tt
           (Bench.session 0 Bench.calibrated) (Bench.calls 0 Bench.calibrated)
           calibrated_rig_starts bench_keys_short).
Defined.

Lemma no_frame_rig_halts :
  startup (Bench.platform Bench.no_frame) 0 Bench.argv tt
  = (Halt (GetchReturn (-1)), tt,
     [EvReadConfiguration "./config.xml"; EvCameraInit; EvStartCapture; EvQueryFrame]).
Proof. vm_compute. reflexivity. Qed.

Lemma failed_startup_runs_nothing_witness :
  In EvStartCapture
     (trace (main (Bench.platform Bench.no_frame) 0 Bench.argv [char "x"] tt)) /\
  trace (main (Bench.platform Bench.no_frame) 0 Bench.argv [char "x"] tt)
  = [EvReadConfiguration "./config.xml"; EvCameraInit; EvStartCapture; EvQueryFrame] /\
  engine_calls
    [EvReadConfiguration "./config.xml"; EvCameraInit; EvStartCapture; EvQueryFrame]
  = [] /\
  config_writes
    [EvReadConfiguration "./config.xml"; EvCameraInit; EvStartCapture; EvQueryFrame]
  = [] /\
  ~ In EvEndCapture
       [EvReadConfiguration "./config.xml"; EvCameraInit; EvStartCapture; EvQueryFrame].
Proof.
  split; [vm_compute; tauto |].
  exact (failed_startup_runs_nothing
           (Bench.platform Bench.no_frame) 0 Bench.argv [char "x"] tt tt
           (GetchReturn (-1))
           [EvReadConfiguration "./config.xml"; EvCameraInit; EvStartCapture;
            EvQueryFrame]
           no_frame_rig_halts).
Defined.

Lemma camera_stopped_once_on_clean_exit_witness :
  existsb (Z.eqb ESC) [char "s"; ESC] = true /\
  exists calls,
    trace (main (Bench.platform Bench.calibrated) 0 Bench.argv [char "s"; ESC] tt)
    = (calls ++ if existsb (Z.eqb ESC) [char "s"; ESC] then [EvEndCapture] else [])%list /\
    ~ In EvEndCapture calls.
Proof.
  split; [reflexivity |].
  exact (camera_stopped_once_on_clean_exit
           (Bench.platform Bench.calibrated) 0 Bench.argv [char "s"; ESC] tt tt
           (Bench.session 0 Bench.calibrated) (Bench.calls 0 Bench.calibrated)
           calibrated_rig_starts).
Defined.

Lemma missing_configuration_skips_camera_and_disk_witness :
  (0 = 0 \/ 0 = 1 \/ 0 = 2) /\
  fopen_r (Bench.platform Bench.no_config) tt (select_config Bench.argv) = false /\
  outcome (main (Bench.platform Bench.no_config) 0 Bench.argv [char "x"] tt)
  = Exited (-1) /\
  trace (main (Bench.platform Bench.no_config) 0 Bench.argv [char "x"] tt) = [].
Proof.
  assert (H0 : 0 = 0 \/ 0 = 1 \/ 0 = 2) by (left; reflexivity).
  assert (Hf : fopen_r (Bench.platform Bench.no_config) tt (select_config Bench.argv)
               = false) by reflexivity.
  split; [exact H0 |]. split; [exact Hf |].
  exact (missing_configuration_skips_camera_and_disk
           (Bench.platform Bench.no_config) 0 Bench.argv [char "x"] tt H0 Hf).
Defined.

Lemma engines_follow_the_keys_witness :
  engine_calls (trace (main (Bench.platform Bench.calibrated) 0 Bench.argv
                            [char "c"; char "S"; char "a"; char "s"; ESC; char "e"] tt))
  = [EvRunCameraCalibration; EvRunProjectorCalibration true; EvRunStructuredLight 1] /\
  engine_calls (trace (main (Bench.platform Bench.calibrated) 0 Bench.argv
                            [char "c"; char "S"; char "a"; char "s"; ESC; char "e"] tt))
  = calls_of_keys 0 [char "c"; char "S"; char "a"; char "s"; ESC; char "e"].
Proof.
  split; [vm_compute; reflexivity |].
  exact (engines_follow_the_keys
           (Bench.platform Bench.calibrated) 0 Bench.argv
           [char "c"; char "S"; char "a"; char "s"; ESC; char "e"] tt tt
           (Bench.session 0 Bench.calibrated) (Bench.calls 0 Bench.calibrated)
           calibrated_rig_starts).
Defined.

Lemma successful_startup_calls_witness :
  startup (Bench.platform Bench.calibrated) 0 Bench.argv tt
  = (Val (Bench.session 0 Bench.calibrated), tt, Bench.calls 0 Bench.calibrated) /\
  configFile (Bench.session 0 Bench.calibrated) = select_config Bench.argv /\
  scan_index (Bench.session 0 Bench.calibrated) = 0 /\
  Bench.calls 0 Bench.calibrated
  = startup_events (select_config Bench.argv)
                   (sl_params (Bench.session 0 Bench.calibrated)).
Proof.
  split; [exact calibrated_rig_starts |].
  exact (successful_startup_calls
           (Bench.platform Bench.calibrated) 0 Bench.argv tt tt
           (Bench.session 0 Bench.calibrated) (Bench.calls 0 Bench.calibrated)
           calibrated_rig_starts).
Defined.
